(** * mender-bootloader-validation: the reboot-resilient validation script

    A shallow embedding of [mender-bootloader-validation.py].  The script is
    one straight-line program that is started once per boot; everything it
    learns about the device comes from child processes and a few files, and
    everything it does to the device goes through the same channels.  The
    embedding keeps that shape: the outside world is an oracle [Env] that
    answers each external call from the history of calls made so far, and
    the script is a state-and-exception computation over a [world] holding
    the in-memory [PersistentState] object, the state file and that history. *)

From Stdlib Require Import ZArith Ascii String List Bool Lia.
From stdpp Require Import base option gmap strings list fin_maps.

Local Open Scope string_scope.
Local Open Scope Z_scope.

(** ** Python values that reach the state dictionary

    The state and configuration dictionaries are loaded from JSON objects
    and only ever receive strings and [None] from the script itself. *)

Inductive pyval : Type :=
| PNone
| PStr (s : string).

#[global] Instance pyval_eq_dec : EqDecision pyval.
Proof. solve_decision. Defined.

(** [==] between two such values. *)
Definition py_eqb (a b : pyval) : bool := bool_decide (a = b).

(** [str(v)] and the rendering of [v] inside an f-string. *)
Definition py_str (v : pyval) : string :=
  match v with
  | PNone => "None"
  | PStr s => s
  end.

(** [d.get(key)]: a missing key and a stored [None] both read as [None]. *)
Definition dict_get (d : gmap string pyval) (key : string) : pyval :=
  match d !! key with
  | Some v => v
  | None => PNone
  end.

(** [d.update(other)]: every key of [other] is (re)bound in [d]. *)
Definition dict_update (d other : gmap string pyval) : gmap string pyval :=
  other ∪ d.

(** [dict(pairs)]: pairs are inserted left to right, a later pair rebinding
    an earlier one. *)
Definition py_dict (pairs : list (string * string)) : gmap string string :=
  foldl (fun d kv => <[kv.1 := kv.2]> d) ∅ pairs.

(** ** Characters and the two regular expressions

    Characters are code points below 256.  [\s] and [str.strip] use the
    same whitespace class; [.] is every character but the line feed. *)

Definition is_space (c : ascii) : bool :=
  let n := N_of_ascii c in
  ((9 <=? n) && (n <=? 13) || (28 <=? n) && (n <=? 32)
   || (n =? 133) || (n =? 160))%N.

Definition is_digit (c : ascii) : bool :=
  let n := N_of_ascii c in ((48 <=? n) && (n <=? 57))%N.

Definition newline : ascii := "010"%char.

Definition not_newline (c : ascii) : bool :=
  negb (bool_decide (c = newline)).

Definition is_empty (s : string) : bool :=
  match s with
  | EmptyString => true
  | String _ _ => false
  end.

Fixpoint lstrip (s : string) : string :=
  match s with
  | String c r => if is_space c then lstrip r else s
  | EmptyString => EmptyString
  end.

Fixpoint rstrip (s : string) : string :=
  match s with
  | String c r =>
      let r' := rstrip r in
      if is_space c && is_empty r' then EmptyString else String c r'
  | EmptyString => EmptyString
  end.

(** [s.strip()] *)
Definition strip (s : string) : string := rstrip (lstrip s).

Module Regex.

(** A backtracking matcher in continuation style: [k] is the rest of the
    pattern, tried on the rest of the subject.  The order in which the
    alternatives are tried is the order of Python's [re] engine. *)

(** [p*] greedy: the longest run first, then shorter ones. *)
Fixpoint star_greedy {R} (p : ascii -> bool) (s : string)
    (k : string -> option R) : option R :=
  match s with
  | String c r =>
      if p c then
        match star_greedy p r k with
        | Some m => Some m
        | None => k s
        end
      else k s
  | EmptyString => k s
  end.

(** [(p*?)] lazy and capturing: the shortest run first; [acc] is what the
    group holds so far. *)
Fixpoint star_lazy {R} (p : ascii -> bool) (acc s : string)
    (k : string -> string -> option R) : option R :=
  match k acc s with
  | Some m => Some m
  | None =>
      match s with
      | String c r =>
          if p c then star_lazy p (acc ++ String c EmptyString) r k
          else None
      | EmptyString => None
      end
  end.

(** [$] without [re.MULTILINE]: the end of the subject, or just before a
    line feed that ends it. *)
Definition at_end (s : string) : bool :=
  match s with
  | EmptyString => true
  | String c EmptyString => bool_decide (c = newline)
  | String _ (String _ _) => false
  end.

(** [^\s*(.*?)\s*=\s*(.*?)\s*$] tried at the start of [s]; the result is
    the pair of groups. *)
Definition match_assignment (s : string) : option (string * string) :=
  star_greedy is_space s (fun s1 =>
  star_lazy not_newline "" s1 (fun g1 s2 =>
  star_greedy is_space s2 (fun s3 =>
  match s3 with
  | String "="%char s4 =>
      star_greedy is_space s4 (fun s5 =>
      star_lazy not_newline "" s5 (fun g2 s6 =>
      star_greedy is_space s6 (fun s7 =>
      if at_end s7 then Some (g1, g2) else None)))
  | _ => None
  end))).

(** [re.findall(r"^\s*(.*?)\s*=\s*(.*?)\s*$", s)].  Without
    [re.MULTILINE] the anchor [^] holds at offset 0 only, and a match
    contains a [=], so the scan yields the match at the start, if there
    is one, and nothing after it. *)
Definition findall_assignment (s : string) : list (string * string) :=
  match match_assignment s with
  | Some g => [g]
  | None => []
  end.

(** The digits that end [s]. *)
Fixpoint trailing_digits (s : string) : string :=
  match s with
  | String c r =>
      let t := trailing_digits r in
      if is_digit c && (String.length t =? String.length r)%nat
      then String c t else t
  | EmptyString => EmptyString
  end.

Fixpoint drop_last (s : string) : string :=
  match s with
  | String c EmptyString => EmptyString
  | String c r => String c (drop_last r)
  | EmptyString => EmptyString
  end.

Fixpoint ends_with_newline (s : string) : bool :=
  match s with
  | String c EmptyString => bool_decide (c = newline)
  | String _ r => ends_with_newline r
  | EmptyString => false
  end.

(** [re.search(r'\d+$', s)], returning [m.group()]: the leftmost match is
    the whole run of digits before the place where [$] holds. *)
Definition search_trailing_number (s : string) : option string :=
  let t := trailing_digits s in
  if negb (is_empty t) then Some t
  else if ends_with_newline s then
    let t' := trailing_digits (drop_last s) in
    if negb (is_empty t') then Some t' else None
  else None.

End Regex.

(** ** The outside world

    Every external call of the script is an [event].  The log sink is
    recorded for the lines that carry a result: failure reasons, success
    lines, abort messages and the verdict.  Progress lines and dumps
    (timestamps, JSON renderings, system information) are left out. *)

Inductive exn : Type :=
| KeyError
| TypeError
| ValueError
| AttributeError
| OSError
| UnicodeDecodeError
| JSONDecodeError
| RuntimeError
| Exception_
| SystemExit (code : Z).

Inductive outcome (A : Type) : Type :=
| Ret (a : A)
| Raise (e : exn).
Arguments Ret {A} a.
Arguments Raise {A} e.

(** What [subprocess.run(cmd, stdout=subprocess.PIPE)] comes back with: a
    completed process, or an exception (command not found, undecodable
    output in the caller's [decode()]). *)
Inductive proc_result : Type :=
| Exited (returncode : Z) (stdout : string)
| SpawnError.

(** Why [dict.update] stops on a value that is not a dict: the value, or
    one of its elements, cannot be iterated, or a key cannot be hashed
    ([TypeError]); or an element is not of length two ([ValueError]). *)
Inductive update_error : Type :=
| NotIterable
| NotAPair.

Definition update_exn (u : update_error) : exn :=
  match u with
  | NotIterable => TypeError
  | NotAPair => ValueError
  end.

(** A file on disk, by what loading it as JSON comes to.

    - [NoFile]: there is no such file.
    - [Unreadable]: the file exists and [open] fails, with an [OSError]
      that is not [FileNotFoundError] (a directory, missing permissions).
    - [Undecodable]: its bytes are not text ([UnicodeDecodeError], which is
      a [ValueError] and not a [json.JSONDecodeError]).
    - [Malformed]: a text that is not JSON.
    - [JsonObject d]: the JSON object [d].
    - [JsonOther taken rejected]: JSON that is not an object.  Such a value
      has no [.get].  [dict.update] reads it as a sequence of pairs: it
      binds [taken] and then, unless it has come to the end, stops with
      [rejected].  So [null], a number and a non-empty string are
      [JsonOther ∅ (Some _)], the empty array is [JsonOther ∅ None], and an
      array of pairs is [JsonOther taken None] with its pairs in [taken]. *)
Inductive file : Type :=
| NoFile
| Unreadable
| Undecodable
| Malformed
| JsonObject (d : gmap string pyval)
| JsonOther (taken : gmap string pyval) (rejected : option update_error).

(** What the run does to the outside world, in the order it does it.
    [RmTemp dir] is the temporary directory removed on leaving its [with]
    block, [RmTempFailed dir] a removal that has been tried and has
    failed. *)
Inductive event : Type :=
| Spawn (argv : list string)
| WriteState (d : gmap string pyval)
| RemoveState
| MkTemp (dir : string)
| RmTemp (dir : string)
| RmTempFailed (dir : string)
| Rename (src dst : string)
| ReadOsRelease
| Info (msg : string)
| Error (msg : string).

(** The device as seen by one run: the configuration files by path, and
    for every other call an answer that may depend on everything the run has
    done before. *)
Record Env : Type := {
  read_json : string -> file;
  subprocess_run : list event -> list string -> proc_result;
  open_write_ok : list event -> bool;
  os_remove_ok : list event -> bool;
  os_rename_ok : list event -> string -> string -> bool;
  mkdtemp : list event -> option string;
  os_release_ok : list event -> bool
}.

(** The [PersistentState] object ([self.config], [self.state]), the state
    file behind it, and the history of the run. *)
Record world : Type := {
  self_config : gmap string pyval;
  self_state : gmap string pyval;
  state_file : file;
  trace : list event
}.

Definition M (A : Type) : Type := world -> outcome A * world.

#[global] Instance M_ret : MRet M := fun A a w => (Ret a, w).

#[global] Instance M_bind : MBind M := fun A B f m w =>
  match m w with
  | (Ret a, w') => f a w'
  | (Raise e, w') => (Raise e, w')
  end.

Definition raise {A} (e : exn) : M A := fun w => (Raise e, w).

Definition emit (e : event) : M unit := fun w =>
  (Ret tt, {| self_config := self_config w; self_state := self_state w;
              state_file := state_file w; trace := trace w ++ [e] |}).

Definition get_trace : M (list event) := fun w => (Ret (trace w), w).

Definition get_self_state : M (gmap string pyval) := fun w => (Ret (self_state w), w).

Definition get_self_config : M (gmap string pyval) := fun w => (Ret (self_config w), w).

Definition put_self_state (d : gmap string pyval) : M unit := fun w =>
  (Ret tt, {| self_config := self_config w; self_state := d;
              state_file := state_file w; trace := trace w |}).

Definition put_self_config (d : gmap string pyval) : M unit := fun w =>
  (Ret tt, {| self_config := d; self_state := self_state w;
              state_file := state_file w; trace := trace w |}).

Definition get_state_file : M file := fun w => (Ret (state_file w), w).

Definition put_state_file (f : file) : M unit := fun w =>
  (Ret tt, {| self_config := self_config w; self_state := self_state w;
              state_file := f; trace := trace w |}).

(** [logger.info(msg)], [logger.error(msg)] *)
Definition info (msg : string) : M unit := emit (Info msg).
Definition error (msg : string) : M unit := emit (Error msg).

(** [try: body finally: cleanup], for the temporary directory. *)
Definition finally {A} (body : M A) (cleanup : M unit) : M A := fun w =>
  match body w with
  | (r, w') =>
      match cleanup w' with
      | (Ret _, w'') => (r, w'')
      | (Raise e, w'') => (Raise e, w'')
      end
  end.

(** The strings of a command line; [None] if one of its words is [None]. *)
Fixpoint argv_of (cmd : list pyval) : option (list string) :=
  match cmd with
  | [] => Some []
  | PStr a :: rest =>
      match argv_of rest with
      | Some l => Some (a :: l)
      | None => None
      end
  | PNone :: _ => None
  end.

(** ** Constants of the script *)

Definition root_path : string := "/".
Definition persistent_directory : string := "data".

Definition MENDER_CLIENT_CONFIG_FILE : string := "etc/mender/mender.conf".
Definition MENDER_DEVICE_CONFIG_FILE : string := "var/lib/mender/mender.conf".

Definition ROOTFS_A_KEY : string := "RootfsPartA".
Definition ROOTFS_B_KEY : string := "RootfsPartB".
Definition PART_NUMBER_A_KEY : string := "PartitionNumberA".
Definition PART_NUMBER_B_KEY : string := "PartitionNumberB".
Definition SET_CMD_KEY : string := "SetCmd".
Definition PRINT_CMD_KEY : string := "PrintCmd".
Definition EXPECTED_ROOT_KEY : string := "ExpectedRoot".
Definition VALIDATION_STEP_KEY : string := "step".

Definition STEP_NONE : string := "none".
Definition STEP_INIT : string := "init".
Definition STEP_TEST_SWITCH : string := "test_switch".
Definition STEP_TEST_UPDATE : string := "test_update".
Definition STEP_TEST_ROLLBACK : string := "test_rollback".
Definition STEP_END : string := "end".

Definition SET_CMD_UBOOT : string := "fw_setenv".
Definition PRINT_CMD_UBOOT : string := "fw_printenv".
Definition SET_CMD_GRUB : string := "grub-mender-grubenv-set".
Definition PRINT_CMD_GRUB : string := "grub-mender-grubenv-print".

Definition CURRENT_ROOT_A : string := "root_a".
Definition CURRENT_ROOT_B : string := "root_b".
Definition CURRENT_ROOT_UNDEFINED : string := "root_undefined".

Definition ENV_KEY_BOOT_PART : string := "mender_boot_part".
Definition ENV_KEY_BOOT_PART_HEX : string := "mender_boot_part_hex".
Definition ENV_KEY_BOOTCOUNT : string := "bootcount".
Definition ENV_KEY_UPGRADE : string := "upgrade_available".

Definition BOOT_DIRECTORY : string := "boot".
Definition BOOT_DIRECTORY_DEFUNCT : string := "boot-defunct".

(** [os.path.join(a, b)] for a relative [b]. *)
Definition os_path_join (a b : string) : string :=
  if is_empty a then b
  else if String.eqb (substring (String.length a - 1) 1 a) "/" then a ++ b
  else a ++ "/" ++ b.

(** The value under [INACTIVE_PART_NUMBER], [INACTIVE_PART_DEVICE] and
    [INACTIVE_PART_IDENT] of the dictionary [get_inactive_bootpart_info]
    builds. *)
Record inactive_info : Type := {
  inactive_number : pyval;
  inactive_device : pyval;
  inactive_ident : string
}.

(** The module-level variables of the two stages. *)
Record vars : Type := {
  keep_going : bool;
  fail_reason : option string;
  current_root : string;
  s : pyval
}.

Definition set_s (v : vars) (s' : pyval) : vars :=
  {| keep_going := keep_going v; fail_reason := fail_reason v;
     current_root := current_root v; s := s' |}.

Definition stop (v : vars) : vars :=
  {| keep_going := false; fail_reason := fail_reason v;
     current_root := current_root v; s := s v |}.

(** The recurring three lines [fail_reason = reason],
    [logger.info(fail_reason)], [keep_going = False]: [failed] is what they
    leave in the variables, [fail_with] the three lines. *)
Definition failed (v : vars) (reason : string) : vars :=
  {| keep_going := false; fail_reason := Some reason;
     current_root := current_root v; s := s v |}.

Definition fail_with (reason : string) (v : vars) : M vars :=
  emit (Info reason);;
  mret (failed v reason).

(** A process that has exited with status 0. *)
Definition exited_ok (r : proc_result) : bool :=
  match r with
  | Exited 0 _ => true
  | _ => false
  end.

(** The command lines [mount <device> <dir>] and [umount <dir>]. *)
Definition is_mount_on (dir : string) (argv : list string) : bool :=
  match argv with
  | [cmd; _; d] => String.eqb cmd "mount" && String.eqb d dir
  | _ => false
  end.

Definition is_umount_of (dir : string) (argv : list string) : bool :=
  match argv with
  | [cmd; d] => String.eqb cmd "umount" && String.eqb d dir
  | _ => false
  end.

Section Script.

Variable env : Env.

(** ** Process running utilities *)

(** [subprocess.run(cmd, stdout=subprocess.PIPE)] inside the callers'
    [try]: a [None] among the words raises before anything is started. *)
Definition subprocess_run_caught (cmd : list pyval) : M proc_result :=
  match argv_of cmd with
  | None => mret SpawnError
  | Some argv =>
      tr ← get_trace;
      emit (Spawn argv);;
      mret (subprocess_run env tr argv)
  end.

Definition check_for_command (cmd : string) : M bool :=
  result ← subprocess_run_caught [PStr "which"; PStr cmd];
  match result with
  | Exited 0 _ => mret true
  | _ => mret false
  end.

Definition run_command (cmd : list pyval) : M bool :=
  result ← subprocess_run_caught cmd;
  match result with
  | Exited 0 _ => mret true
  | _ => mret false
  end.

Definition run_command_get_output (cmd : list pyval) : M (option string) :=
  result ← subprocess_run_caught cmd;
  match result with
  | Exited 0 stdout => mret (Some (strip stdout))
  | _ => mret None
  end.

Definition reboot : M unit :=
  run_command [PStr "reboot"];; mret tt.

(** ** class PersistentState *)

(** [read_file_int]: a missing or malformed file contributes nothing, for
    the two handlers [except FileNotFoundError] and
    [except json.JSONDecodeError]; every other exception of [open],
    [json.load] and [self.config.update] leaves the function.  [update]
    works in place: what it has bound before it stops stays bound. *)
Definition read_file_int (relative_path : string) : M unit :=
  let p := os_path_join root_path relative_path in
  match read_json env p with
  | JsonObject d =>
      config ← get_self_config;
      put_self_config (dict_update config d)
  | JsonOther taken rejected =>
      config ← get_self_config;
      put_self_config (dict_update config taken);;
      match rejected with
      | Some u => raise (update_exn u)
      | None => mret tt
      end
  | NoFile => mret tt
  | Malformed => mret tt
  | Unreadable => raise OSError
  | Undecodable => raise UnicodeDecodeError
  end.

(** [_load_state] returns whatever [json.load] gives: [Some] for a dict,
    [None] for a value of another type.  No handler here: the file is
    opened only if [os.path.exists] says it is there. *)
Definition _load_state : M (option (gmap string pyval)) :=
  f ← get_state_file;
  match f with
  | JsonObject d => mret (Some d)
  | JsonOther _ _ => mret None
  | NoFile => mret (Some ∅)
  | Malformed => raise JSONDecodeError
  | Unreadable => raise OSError
  | Undecodable => raise UnicodeDecodeError
  end.

Definition _save_state : M unit :=
  tr ← get_trace;
  if open_write_ok env tr then
    st ← get_self_state;
    put_state_file (JsonObject st);;
    emit (WriteState st)
  else raise OSError.

Definition _set_state (key : string) (value : pyval) : M unit :=
  st ← get_self_state;
  put_self_state (<[key := value]> st);;
  _save_state.

Definition _get_state (key : string) : M pyval :=
  st ← get_self_state;
  mret (dict_get st key).

Definition get_root_part_device_a : M pyval := _get_state ROOTFS_A_KEY.
Definition get_root_part_device_b : M pyval := _get_state ROOTFS_B_KEY.
Definition get_root_part_number_a : M pyval := _get_state PART_NUMBER_A_KEY.
Definition get_root_part_number_b : M pyval := _get_state PART_NUMBER_B_KEY.
Definition get_env_set_cmd : M pyval := _get_state SET_CMD_KEY.
Definition get_env_print_cmd : M pyval := _get_state PRINT_CMD_KEY.
Definition get_step : M pyval := _get_state VALIDATION_STEP_KEY.
Definition get_expected_root : M pyval := _get_state EXPECTED_ROOT_KEY.

Definition set_expected_root (value : pyval) : M unit :=
  _set_state EXPECTED_ROOT_KEY value.

Definition _set_step (step : string) : M unit :=
  _set_state VALIDATION_STEP_KEY (PStr step).

Definition next_step : M pyval :=
  s ← get_step;
  (if py_eqb s (PStr STEP_NONE) then _set_step STEP_INIT
   else if py_eqb s (PStr STEP_INIT) then _set_step STEP_TEST_SWITCH
   else if py_eqb s (PStr STEP_TEST_SWITCH) then _set_step STEP_TEST_UPDATE
   else if py_eqb s (PStr STEP_TEST_UPDATE) then _set_step STEP_TEST_ROLLBACK
   else if py_eqb s (PStr STEP_TEST_ROLLBACK) then _set_step STEP_END
   else if py_eqb s (PStr STEP_END) then mret tt
   else
     error ("could not get next step after " ++ py_str s ++ ", aborting");;
     raise Exception_);;
  s ← get_step;
  mret s.

Definition clean : M unit :=
  tr ← get_trace;
  if os_remove_ok env tr then
    put_state_file NoFile;;
    emit RemoveState
  else raise OSError.

(** [PersistentState.__init__].  A loaded state that is not a dict has no
    [.get]: the first [_get_state] raises [AttributeError], and the object
    under construction is lost with it, so the record of the model stays
    what it was. *)
Definition PersistentState_init : M unit :=
  put_self_config ∅;;
  read_file_int MENDER_CLIENT_CONFIG_FILE;;
  read_file_int MENDER_DEVICE_CONFIG_FILE;;
  st ← _load_state;
  match st with
  | None => raise AttributeError
  | Some st =>
      put_self_state st;;
      last_a ← _get_state ROOTFS_A_KEY;
      last_b ← _get_state ROOTFS_B_KEY;
      config ← get_self_config;
      let config_a := dict_get config ROOTFS_A_KEY in
      let config_b := dict_get config ROOTFS_B_KEY in
      if py_eqb config_a PNone then
        info "root filesystem A not found in  config, aborting";;
        raise RuntimeError
      else if py_eqb config_b PNone then
        info "root filesystem B not found in  config, aborting";;
        raise RuntimeError
      else if negb (py_eqb last_a PNone) && negb (py_eqb last_a config_a) then
        info ("root filesystem A in config " ++ py_str config_a
              ++ " does not match last used one " ++ py_str last_a ++ ", aborting");;
        raise RuntimeError
      else if negb (py_eqb last_b PNone) && negb (py_eqb last_b config_b) then
        info ("root filesystem B in config " ++ py_str config_b
              ++ " does not match last used one " ++ py_str last_b ++ ", aborting");;
        raise RuntimeError
      else mret tt
  end.

Definition extract_part_number (part : pyval) : M pyval :=
  match part with
  | PStr p =>
      match Regex.search_trailing_number p with
      | Some digits => mret (PStr digits)
      | None => mret PNone
      end
  | PNone => raise TypeError
  end.

Definition create_initial_state : M unit :=
  config ← get_self_config;
  let rfs_a := dict_get config ROOTFS_A_KEY in
  let rfs_b := dict_get config ROOTFS_B_KEY in
  uboot ← check_for_command PRINT_CMD_UBOOT;
  let set_cmd := if (uboot : bool) then SET_CMD_UBOOT else SET_CMD_GRUB in
  let print_cmd := if uboot then PRINT_CMD_UBOOT else PRINT_CMD_GRUB in
  part_num_a ← extract_part_number rfs_a;
  part_num_b ← extract_part_number rfs_b;
  _set_state SET_CMD_KEY (PStr set_cmd);;
  _set_state PRINT_CMD_KEY (PStr print_cmd);;
  _set_state ROOTFS_A_KEY rfs_a;;
  _set_state ROOTFS_B_KEY rfs_b;;
  _set_state PART_NUMBER_A_KEY part_num_a;;
  _set_state PART_NUMBER_B_KEY part_num_b;;
  _set_step STEP_NONE.

(** ** Root partition helpers *)

Definition identify_mounted_root : M string :=
  root ← run_command_get_output [PStr "stat"; PStr "-c"; PStr "%D"; PStr root_path];
  device_a ← get_root_part_device_a;
  a ← run_command_get_output [PStr "stat"; PStr "-c"; PStr "%t%02T"; device_a];
  device_b ← get_root_part_device_b;
  b ← run_command_get_output [PStr "stat"; PStr "-c"; PStr "%t%02T"; device_b];
  mret (if bool_decide (root = a) then CURRENT_ROOT_A
        else if bool_decide (root = b) then CURRENT_ROOT_B
        else CURRENT_ROOT_UNDEFINED).

Definition set_env_variable (variable_name value : string) : M bool :=
  cmd ← get_env_set_cmd;
  run_command [cmd; PStr variable_name; PStr value].

(** [vdict[variable_name]] is a subscript: a missing key raises
    [KeyError].  The values of [vdict] are strings, so the test
    [is None] that follows never holds. *)
Definition assert_env_variable (variable_name expect : string) : M bool :=
  cmd ← get_env_print_cmd;
  value ← run_command_get_output [cmd; PStr variable_name];
  match value with
  | None => mret false
  | Some value =>
      let vdict := py_dict (Regex.findall_assignment value) in
      match vdict !! variable_name with
      | None => raise KeyError
      | Some found =>
          if bool_decide (found = expect) then
            info "success!";; mret true
          else mret false
      end
  end.

(** ** Bootloader helpers *)

Definition get_inactive_bootpart_info (current : string) : M (option inactive_info) :=
  if bool_decide (current = CURRENT_ROOT_A) then
    number ← get_root_part_number_b;
    device ← get_root_part_device_b;
    mret (Some {| inactive_number := number; inactive_device := device;
                  inactive_ident := CURRENT_ROOT_B |})
  else if bool_decide (current = CURRENT_ROOT_B) then
    number ← get_root_part_number_a;
    device ← get_root_part_device_a;
    mret (Some {| inactive_number := number; inactive_device := device;
                  inactive_ident := CURRENT_ROOT_A |})
  else mret None.

Definition set_mender_bootpart (num : pyval) : M bool :=
  ok ← set_env_variable ENV_KEY_BOOT_PART (py_str num);
  if negb ok then
    info "failed to set mender_boot_part";; mret false
  else
    ok ← set_env_variable ENV_KEY_BOOT_PART_HEX (py_str num);
    if negb ok then
      info "failed to set mender_boot_part_hex";; mret false
    else mret true.

(** ** Load state *)

Definition load_state : M unit := fun w =>
  match PersistentState_init w with
  | (Raise RuntimeError, w') =>
      (info "something bad happened when loading the last state, exiting now.";;
       raise (SystemExit 1)) w'
  | r => r
  end.

(** ** First stage: evaluate the outcome of the last step *)

Definition evaluate_test_switch (v : vars) : M vars :=
  expected ← get_expected_root;
  if py_eqb expected (PStr (current_root v)) then
    info "switch test successful";; mret v
  else fail_with "switch test failed" v.

Definition evaluate_test_update (v : vars) : M vars :=
  expected ← get_expected_root;
  v ← (if negb (py_eqb expected (PStr (current_root v))) then
         fail_with ("update test did not match expected root: " ++ py_str expected) v
       else mret v);
  ok ← assert_env_variable ENV_KEY_BOOTCOUNT "1";
  v ← (if negb ok then fail_with ("failed " ++ ENV_KEY_BOOTCOUNT ++ " assertion") v
       else mret v);
  ok ← assert_env_variable ENV_KEY_UPGRADE "1";
  v ← (if negb ok then fail_with ("failed " ++ ENV_KEY_UPGRADE ++ " assertion") v
       else mret v);
  v ← (if keep_going v then
         ok ← set_env_variable ENV_KEY_BOOTCOUNT "0";
         if negb ok then fail_with ("failed to set " ++ ENV_KEY_BOOTCOUNT) v
         else mret v
       else mret v);
  v ← (if keep_going v then
         ok ← set_env_variable ENV_KEY_UPGRADE "0";
         if negb ok then fail_with ("failed to set " ++ ENV_KEY_UPGRADE) v
         else mret v
       else mret v);
  (if keep_going v then info "update test successful" else mret tt);;
  mret v.

Definition evaluate_test_rollback (v : vars) : M vars :=
  ok ← assert_env_variable ENV_KEY_UPGRADE "0";
  v ← (if negb ok then fail_with ("failed " ++ ENV_KEY_UPGRADE ++ " assertion") v
       else mret v);
  expected ← get_expected_root;
  v ← (if negb (py_eqb expected (PStr (current_root v))) then
         fail_with ("rollback test did not match expected root: " ++ py_str expected) v
       else mret v);
  v ← (if keep_going v then
         ok ← set_env_variable ENV_KEY_BOOTCOUNT "0";
         if negb ok then fail_with ("failed to set " ++ ENV_KEY_BOOTCOUNT) v
         else mret v
       else mret v);
  v ← (if keep_going v then
         ok ← set_env_variable ENV_KEY_UPGRADE "0";
         if negb ok then fail_with ("failed to set " ++ ENV_KEY_UPGRADE) v
         else mret v
       else mret v);
  (if keep_going v then info "rollback test successful" else mret tt);;
  mret v.

(** The chain [if s == None: ... elif s == state.STEP_TEST_SWITCH: ...];
    [s] keeps the value read before the chain. *)
Definition evaluate (v : vars) : M vars :=
  if py_eqb (s v) PNone then create_initial_state;; mret v
  else if py_eqb (s v) (PStr STEP_TEST_SWITCH) then evaluate_test_switch v
  else if py_eqb (s v) (PStr STEP_TEST_UPDATE) then evaluate_test_update v
  else if py_eqb (s v) (PStr STEP_TEST_ROLLBACK) then evaluate_test_rollback v
  else mret v.

Definition first_stage : M vars :=
  root ← identify_mounted_root;
  step ← get_step;
  evaluate {| keep_going := true; fail_reason := None;
              current_root := root; s := step |}.

(** ** Second stage: prepare the device for the next step *)

Definition advance (v : vars) : M vars :=
  if keep_going v then
    step ← next_step;
    mret (set_s v step)
  else mret v.

Definition prepare_init (v : vars) : M vars :=
  run_command_get_output [PStr "uname"; PStr "-a"];;
  tr ← get_trace;
  emit ReadOsRelease;;
  if os_release_ok env tr then mret v else raise OSError.

Definition prepare_test_switch (v : vars) : M vars :=
  inactive ← get_inactive_bootpart_info (current_root v);
  match inactive with
  | Some inactive =>
      ok ← set_mender_bootpart (inactive_number inactive);
      if (ok : bool) then
        set_expected_root (PStr (inactive_ident inactive));; mret v
      else
        fail_with ("failed to set boot partition " ++ inactive_ident inactive) v
  | None =>
      fail_with "could not identify partition numbers for switch, aborting" v
  end.

(** The first two reasons are plain string literals in the source, not
    f-strings: the braces are part of the text. *)
Definition prepare_test_update (v : vars) : M vars :=
  v ← (if keep_going v then
         ok ← set_env_variable ENV_KEY_BOOTCOUNT "0";
         if negb ok then fail_with "failed to set {ENV_KEY_BOOTCOUNT}" v
         else mret v
       else mret v);
  v ← (if keep_going v then
         ok ← set_env_variable ENV_KEY_UPGRADE "1";
         if negb ok then fail_with "failed to set {ENV_KEY_UPGRADE}" v
         else mret v
       else mret v);
  inactive ← get_inactive_bootpart_info (current_root v);
  match keep_going v, inactive with
  | true, Some inactive =>
      ok ← set_mender_bootpart (inactive_number inactive);
      if (ok : bool) then
        set_expected_root (PStr (inactive_ident inactive));; mret v
      else
        fail_with ("failed to set boot partition " ++ inactive_ident inactive) v
  | _, _ =>
      fail_with "could not identify partition numbers for update, aborting" v
  end.

(** The body of [with tempfile.TemporaryDirectory() as tmpdirname]. *)
Definition inject_fault (inactive : inactive_info) (tmpdirname : string)
    (v : vars) : M vars :=
  ok ← run_command [PStr "mount"; inactive_device inactive; PStr tmpdirname];
  v ← (if negb ok then
         fail_with ("failed to mount " ++ py_str (inactive_device inactive)
                    ++ " to " ++ tmpdirname ++ ", aborting") v
       else mret v);
  v ← (if keep_going v then
         let src := os_path_join tmpdirname BOOT_DIRECTORY in
         let dst := os_path_join tmpdirname BOOT_DIRECTORY_DEFUNCT in
         tr ← get_trace;
         emit (Rename src dst);;
         if os_rename_ok env tr src dst then mret v
         else fail_with ("failed to rename " ++ BOOT_DIRECTORY ++ " in "
                         ++ tmpdirname ++ ", aborting") v
       else mret v);
  v ← (if keep_going v then
         ok ← run_command [PStr "umount"; PStr tmpdirname];
         if negb ok then fail_with ("failed to unmount " ++ tmpdirname) v
         else mret v
       else mret v);
  v ← (if keep_going v then
         ok ← set_env_variable ENV_KEY_BOOTCOUNT "0";
         if negb ok then fail_with ("failed to set " ++ ENV_KEY_BOOTCOUNT) v
         else mret v
       else mret v);
  v ← (if keep_going v then
         ok ← set_env_variable ENV_KEY_UPGRADE "1";
         if negb ok then fail_with ("failed to set " ++ ENV_KEY_UPGRADE) v
         else mret v
       else mret v);
  v ← (if keep_going v then
         ok ← set_mender_bootpart (inactive_number inactive);
         if negb ok then
           fail_with ("failed to set boot partition " ++ inactive_ident inactive) v
         else mret v
       else mret v);
  (if keep_going v then set_expected_root (PStr (current_root v)) else mret tt);;
  mret v.

(** Whether a file system sits on [dir], replayed from the history of the
    run: it does once a [mount] on [dir] has exited with 0, until a
    [umount] of [dir] exits with 0, and a directory that has just been made
    is not a mount point.  [done] are the events before [e]; a process is
    judged by what it returned when it ran. *)
Definition mount_step (done : list event) (e : event) (dir : string)
    (mounted : bool) : bool :=
  match e with
  | MkTemp d => if String.eqb d dir then false else mounted
  | Spawn argv =>
      if exited_ok (subprocess_run env done argv) then
        if is_mount_on dir argv then true
        else if is_umount_of dir argv then false
        else mounted
      else mounted
  | _ => mounted
  end.

Fixpoint mounted_from (done rest : list event) (dir : string)
    (mounted : bool) : bool :=
  match rest with
  | [] => mounted
  | e :: rest' =>
      mounted_from (done ++ [e]) rest' dir (mount_step done e dir mounted)
  end.

Definition still_mounted (tr : list event) (dir : string) : bool :=
  mounted_from [] tr dir false.

(** Leaving [with tempfile.TemporaryDirectory()]: [cleanup] removes the
    directory tree.  On a directory that still is a mount point,
    [shutil.rmtree] goes through what is mounted there and then fails on
    the mount point itself with an [OSError], which [cleanup] lets
    through; the directory stays. *)
Definition cleanup (tmpdirname : string) : M unit :=
  tr ← get_trace;
  if still_mounted tr tmpdirname then
    emit (RmTempFailed tmpdirname);;
    raise OSError
  else emit (RmTemp tmpdirname).

Definition prepare_test_rollback (v : vars) : M vars :=
  inactive ← get_inactive_bootpart_info (current_root v);
  match keep_going v, inactive with
  | true, Some inactive =>
      tr ← get_trace;
      match mkdtemp env tr with
      | Some tmpdirname =>
          emit (MkTemp tmpdirname);;
          finally (inject_fault inactive tmpdirname v) (cleanup tmpdirname)
      | None => raise OSError
      end
  | _, _ => mret v
  end.

Definition prepare (v : vars) : M vars :=
  if py_eqb (s v) (PStr STEP_INIT) then prepare_init v
  else if py_eqb (s v) (PStr STEP_TEST_SWITCH) then prepare_test_switch v
  else if py_eqb (s v) (PStr STEP_TEST_UPDATE) then prepare_test_update v
  else if py_eqb (s v) (PStr STEP_TEST_ROLLBACK) then prepare_test_rollback v
  else if py_eqb (s v) (PStr STEP_END) then mret (stop v)
  else mret v.

Definition second_stage (v : vars) : M vars :=
  v ← advance v;
  prepare v.

(** ** Reboot, or finalize *)

Definition finalize (v : vars) : M unit :=
  run_command [PStr "systemctl"; PStr "disable";
               PStr "mender-bootloader-validation.service"];;
  clean;;
  match fail_reason v with
  | None => info "BOOTLOADER VALIDATION: SUCCESS"
  | Some reason => info ("BOOTLOADER VALIDATION: FAILURE - " ++ reason)
  end.

Definition last_stage (v : vars) : M unit :=
  if keep_going v then reboot else finalize v.

(** The stages after the state has been loaded. *)
Definition stages : M vars :=
  v ← first_stage;
  v ← second_stage v;
  last_stage v;;
  mret v.

(** The whole script. *)
Definition script : M vars :=
  load_state;;
  stages.

End Script.

(** The state of a freshly started process on a device whose state file is
    [f]. *)
Definition boot (f : file) : world :=
  {| self_config := ∅; self_state := ∅; state_file := f; trace := [] |}.

(** ** Vocabulary of the statements *)

(** [w] after the events [l]. *)
Definition log_to (w : world) (l : list event) : world :=
  {| self_config := self_config w; self_state := self_state w;
     state_file := state_file w; trace := trace w ++ l |}.

(** [w] after [self.state[key] = value] has been written through. *)
Definition persisted (w : world) (key : string) (value : pyval) : world :=
  {| self_config := self_config w;
     self_state := <[key := value]> (self_state w);
     state_file := JsonObject (<[key := value]> (self_state w));
     trace := trace w ++ [WriteState (<[key := value]> (self_state w))] |}.



(** The two facts that tie [fail_reason] to [keep_going] between the
    stages. *)
Definition coherent (v : vars) : Prop :=
  (keep_going v = true -> fail_reason v = None)
  /\ (keep_going v = false -> fail_reason v <> None).

(** What a configuration file contributes to [self.config]. *)
Definition contributed (f : file) : gmap string pyval :=
  match f with
  | JsonObject d => d
  | JsonOther taken _ => taken
  | NoFile => ∅
  | Unreadable => ∅
  | Undecodable => ∅
  | Malformed => ∅
  end.

(** The exception with which reading the configuration file [f] leaves
    [read_file_int], if it does. *)
Definition config_error (f : file) : option exn :=
  match f with
  | Unreadable => Some OSError
  | Undecodable => Some UnicodeDecodeError
  | JsonOther _ (Some u) => Some (update_exn u)
  | _ => None
  end.

Definition client_config_path : string :=
  os_path_join root_path MENDER_CLIENT_CONFIG_FILE.

Definition device_config_path : string :=
  os_path_join root_path MENDER_DEVICE_CONFIG_FILE.

(** The exception that loading the state file [f] ends in, if it does:
    from [open] or [json.load] in [_load_state], or from the first
    [self.state.get] on a value that is not a dict.  A state file that is
    absent or holds a JSON object gives a record. *)
Definition state_error (f : file) : option exn :=
  match f with
  | NoFile | JsonObject _ => None
  | Unreadable => Some OSError
  | Undecodable => Some UnicodeDecodeError
  | Malformed => Some JSONDecodeError
  | JsonOther _ _ => Some AttributeError
  end.

(** Both configuration files can be read, or are skipped by a handler. *)
Definition config_loads (env : Env) : Prop :=
  config_error (read_json env client_config_path) = None
  /\ config_error (read_json env device_config_path) = None.

(** The order of the steps. *)
Definition step_order : list string :=
  [STEP_NONE; STEP_INIT; STEP_TEST_SWITCH; STEP_TEST_UPDATE;
   STEP_TEST_ROLLBACK; STEP_END].

(** ** Devices for the concrete runs *)

Fixpoint answer (answers : list (list string * proc_result))
    (default : proc_result) (argv : list string) : proc_result :=
  match answers with
  | (cmd, r) :: rest =>
      if bool_decide (cmd = argv) then r else answer rest default argv
  | [] => default
  end.

(** A device whose commands answer by command line alone, with a client
    and a device configuration file, a writable data directory and the
    temporary directory [/tmp/tmpq1w2e3]. *)
Definition scripted_device (client device : file)
    (answers : list (list string * proc_result)) (default : proc_result) : Env :=
  {| read_json := fun p =>
       if String.eqb p client_config_path then client
       else if String.eqb p device_config_path then device
       else NoFile;
     subprocess_run := fun _ argv => answer answers default argv;
     open_write_ok := fun _ => true;
     os_remove_ok := fun _ => true;
     os_rename_ok := fun _ _ _ => true;
     mkdtemp := fun _ => Some "/tmp/tmpq1w2e3";
     os_release_ok := fun _ => true |}.

Definition mmc_config : gmap string pyval :=
  <[ROOTFS_A_KEY := PStr "/dev/mmcblk0p2"]>
    (<[ROOTFS_B_KEY := PStr "/dev/mmcblk0p3"]> ∅).

(** The state record of a U-Boot device in the middle of a sequence. *)
Definition mmc_state (step : string) (expected : string) : gmap string pyval :=
  <[SET_CMD_KEY := PStr SET_CMD_UBOOT]>
    (<[PRINT_CMD_KEY := PStr PRINT_CMD_UBOOT]>
    (<[ROOTFS_A_KEY := PStr "/dev/mmcblk0p2"]>
    (<[ROOTFS_B_KEY := PStr "/dev/mmcblk0p3"]>
    (<[PART_NUMBER_A_KEY := PStr "2"]>
    (<[PART_NUMBER_B_KEY := PStr "3"]>
    (<[EXPECTED_ROOT_KEY := PStr expected]>
    (<[VALIDATION_STEP_KEY := PStr step]> ∅))))))).

Definition mmc_world (step expected : string) : world :=
  {| self_config := mmc_config; self_state := mmc_state step expected;
     state_file := JsonObject (mmc_state step expected); trace := [] |}.

(** The three [stat] probes of a device that runs from partition A. *)
Definition stat_root_a : list (list string * proc_result) :=
  [(["stat"; "-c"; "%D"; "/"], Exited 0 "b302");
   (["stat"; "-c"; "%t%02T"; "/dev/mmcblk0p2"], Exited 0 "b302");
   (["stat"; "-c"; "%t%02T"; "/dev/mmcblk0p3"], Exited 0 "b303")].

(** An environment that reads [bootcount=1] and [upgrade_available=1]. *)
Definition env_pending : list (list string * proc_result) :=
  [(["fw_printenv"; "bootcount"], Exited 0 "bootcount=1");
   (["fw_printenv"; "upgrade_available"], Exited 0 "upgrade_available=1")].

(** An environment that reads [upgrade_available=0]. *)
Definition env_rolled_back : list (list string * proc_result) :=
  [(["fw_printenv"; "upgrade_available"], Exited 0 "upgrade_available=0")].

(** Two layered configuration files that disagree on partition A. *)
Definition layered_device : Env :=
  scripted_device
    (JsonObject (<[ROOTFS_A_KEY := PStr "/dev/sda2"]>
                   (<[ROOTFS_B_KEY := PStr "/dev/sda3"]> ∅)))
    (JsonObject (<[ROOTFS_A_KEY := PStr "/dev/mmcblk0p2"]> ∅))
    [] SpawnError.

(** A device on which [stat] cannot be run. *)
Definition no_stat_device : Env :=
  scripted_device (JsonObject mmc_config) NoFile [] SpawnError.

(** A device whose print command succeeds without printing anything. *)
Definition silent_print_device : Env :=
  scripted_device (JsonObject mmc_config) NoFile stat_root_a (Exited 0 "").

(** A device that runs from A and reads a pending update, with every other
    command succeeding. *)
Definition update_on_a_device : Env :=
  scripted_device (JsonObject mmc_config) NoFile
    (stat_root_a ++ env_pending) (Exited 0 "").

(** A device that runs from A after a rollback. *)
Definition rolled_back_device : Env :=
  scripted_device (JsonObject mmc_config) NoFile
    (stat_root_a ++ env_rolled_back) (Exited 0 "").

(** The given readings, with a set command that fails. *)
Definition readonly_env_device (readings : list (list string * proc_result)) : Env :=
  scripted_device (JsonObject mmc_config) NoFile
    (stat_root_a ++ readings) (Exited 1 "").

(** The events of one call of [run_command] or [run_command_get_output]:
    the process, unless a [None] among the words stopped it. *)
Definition attempt (cmd : list pyval) : list event :=
  match argv_of cmd with
  | Some argv => [Spawn argv]
  | None => []
  end.

(** The module-level variables when the first stage starts evaluating. *)
Definition entering (root : string) (step : pyval) : vars :=
  {| keep_going := true; fail_reason := None; current_root := root; s := step |}.

(** ** Vocabulary for strings *)

Fixpoint all_chars (p : ascii -> bool) (t : string) : bool :=
  match t with
  | String c r => p c && all_chars p r
  | EmptyString => true
  end.

Definition starts_with (p : ascii -> bool) (t : string) : bool :=
  match t with
  | String c _ => p c
  | EmptyString => false
  end.

Fixpoint ends_with (p : ascii -> bool) (t : string) : bool :=
  match t with
  | String c EmptyString => p c
  | String _ r => ends_with p r
  | EmptyString => false
  end.

(** A character of a variable name as the print commands show it:
    neither whitespace nor the equals sign. *)
Definition is_name_char (c : ascii) : bool :=
  negb (is_space c) && negb (bool_decide (c = "="%char)).

(** [self.config] after the two configuration files have been read. *)
Definition merged_config (env : Env) : gmap string pyval :=
  dict_update (dict_update ∅ (contributed (read_json env client_config_path)))
    (contributed (read_json env device_config_path)).

(** A process that has loaded the configuration and the record [st] from
    the state file [f], and done nothing else. *)
Definition loaded (env : Env) (st : gmap string pyval) (f : file) : world :=
  {| self_config := merged_config env; self_state := st; state_file := f;
     trace := [] |}.

Definition exit_line : string :=
  "something bad happened when loading the last state, exiting now.".

(** A [stat] process. *)
Definition is_stat (e : event) : bool :=
  match e with
  | Spawn (cmd :: _) => String.eqb cmd "stat"
  | _ => false
  end.

(** The identity of the partition that [current] is not. *)
Definition other_root (current : string) : option string :=
  if bool_decide (current = CURRENT_ROOT_A) then Some CURRENT_ROOT_B
  else if bool_decide (current = CURRENT_ROOT_B) then Some CURRENT_ROOT_A
  else None.

(** The state keys of the partition with identity [root]. *)
Definition root_number_key (root : string) : string :=
  if bool_decide (root = CURRENT_ROOT_A) then PART_NUMBER_A_KEY
  else PART_NUMBER_B_KEY.

Definition root_device_key (root : string) : string :=
  if bool_decide (root = CURRENT_ROOT_A) then ROOTFS_A_KEY else ROOTFS_B_KEY.

(** What [extract_part_number] stores for the device path [device]. *)
Definition part_number (device : string) : pyval :=
  match Regex.search_trailing_number device with
  | Some digits => PStr digits
  | None => PNone
  end.

(** The record [create_initial_state] builds over [st] for the partitions
    [a] and [b], on a device that has [fw_printenv] ([uboot]) or not. *)
Definition initial_record (uboot : bool) (a b : string)
    (st : gmap string pyval) : gmap string pyval :=
  <[VALIDATION_STEP_KEY := PStr STEP_NONE]>
    (<[PART_NUMBER_B_KEY := part_number b]>
    (<[PART_NUMBER_A_KEY := part_number a]>
    (<[ROOTFS_B_KEY := PStr b]>
    (<[ROOTFS_A_KEY := PStr a]>
    (<[PRINT_CMD_KEY := PStr (if uboot then PRINT_CMD_UBOOT else PRINT_CMD_GRUB)]>
    (<[SET_CMD_KEY := PStr (if uboot then SET_CMD_UBOOT else SET_CMD_GRUB)]>
       st)))))).

Definition is_write (e : event) : bool :=
  match e with
  | WriteState _ => true
  | _ => false
  end.

(** * Proofs *)

(** ** The two regular expressions on typical inputs *)

Example findall_single : Regex.findall_assignment "bootcount=1" = [("bootcount", "1")].
Proof. reflexivity. Qed.

Example findall_spaced : Regex.findall_assignment "  upgrade_available =  0 " = [("upgrade_available", "0")].
Proof. reflexivity. Qed.

Example findall_two_lines : Regex.findall_assignment ("a=1" ++ String newline "b=2") = [].
Proof. reflexivity. Qed.

Example findall_nested : Regex.findall_assignment "a=b=c" = [("a", "b=c")].
Proof. reflexivity. Qed.

Example search_number_mmc : Regex.search_trailing_number "/dev/mmcblk0p3" = Some "3".
Proof. reflexivity. Qed.

Example search_number_none : Regex.search_trailing_number "/dev/root" = None.
Proof. reflexivity. Qed.

Example py_dict_last : py_dict [("a", "1"); ("a", "2")] !! "a" = Some "2".
Proof. reflexivity. Qed.


Arguments assert_env_variable : simpl never.
Arguments set_env_variable : simpl never.
Arguments run_command : simpl never.
Arguments run_command_get_output : simpl never.
Arguments get_inactive_bootpart_info : simpl never.

(** ** Symbolic execution of the monad *)

Ltac mstep H :=
  unfold fail_with, info, error in H;
  unfold mbind, M_bind, mret, M_ret, raise, emit, get_trace, get_self_state,
    get_self_config, put_self_state, put_self_config, get_state_file,
    put_state_file in H;
  cbn beta iota zeta in H.

Ltac use_eqs H :=
  repeat match goal with
         | E : ?t = (_, _) |- _ => assert_fails (constr_eq E H); rewrite E in H
         | E : keep_going ?v = _ |- _ => rewrite E in H
         end.

Ltac simp H :=
  repeat (progress (use_eqs H; cbn beta iota zeta in H;
                    cbn [negb fst snd keep_going fail_reason current_root s
                         failed self_config self_state state_file trace] in H)).

Ltac fork H :=
  first
    [ match type of H with
      | context [if ?b then _ else _] => is_var b; destruct b
      | context [if negb ?b then _ else _] => is_var b; destruct b
      | context [match ?x with Ret _ => _ | Raise _ => _ end] => is_var x; destruct x
      end
    | match type of H with
      | context [match ?x with (_, _) => _ end] =>
          lazymatch x with
          | (_, _) => fail
          | (if _ then _ else _) _ => fail
          | context [match _ with (_, _) => _ end] => fail
          | _ => let r := fresh "r" in let w := fresh "w" in let E := fresh "E" in
                 destruct x as [r w] eqn:E
          end
      end ].


Lemma py_eqb_eq a b : py_eqb a b = true <-> a = b.
Proof. unfold py_eqb. apply bool_decide_eq_true. Qed.

Lemma py_eqb_neq a b : py_eqb a b = false <-> a <> b.
Proof. unfold py_eqb. apply bool_decide_eq_false. Qed.

Lemma log_to_nil w : log_to w [] = w.
Proof. destruct w. unfold log_to. cbn. rewrite app_nil_r. reflexivity. Qed.

Lemma log_to_app w l1 l2 : log_to (log_to w l1) l2 = log_to w (l1 ++ l2).
Proof. unfold log_to. cbn. rewrite app_assoc. reflexivity. Qed.

(** ** The state store *)

Lemma _set_state_eq env key value w :
  _set_state env key value w =
    if open_write_ok env (trace w) then (Ret tt, persisted w key value)
    else (Raise OSError,
          {| self_config := self_config w;
             self_state := <[key := value]> (self_state w);
             state_file := state_file w; trace := trace w |}).
Proof.
  unfold _set_state, _save_state, persisted.
  unfold mbind, M_bind, mret, M_ret, raise, emit, get_trace, get_self_state,
    put_self_state, put_state_file.
  cbn. destruct (open_write_ok env (trace w)); reflexivity.
Qed.

Lemma _set_state_returns env key value w w' :
  _set_state env key value w = (Ret tt, w') ->
  open_write_ok env (trace w) = true /\ w' = persisted w key value.
Proof.
  rewrite _set_state_eq. destruct (open_write_ok env (trace w)); [|discriminate].
  intros [= <-]. split; reflexivity.
Qed.

Lemma persisted_on_disk w key value :
  self_state (persisted w key value) = <[key := value]> (self_state w)
  /\ state_file (persisted w key value) = JsonObject (self_state (persisted w key value))
  /\ trace (persisted w key value)
     = (trace w ++ [WriteState (self_state (persisted w key value))])%list.
Proof. repeat split. Qed.

Lemma get_step_eq w :
  get_step w = (Ret (dict_get (self_state w) VALIDATION_STEP_KEY), w).
Proof. reflexivity. Qed.

Lemma step_of_persisted w y :
  dict_get (self_state (persisted w VALIDATION_STEP_KEY (PStr y))) VALIDATION_STEP_KEY
  = PStr y.
Proof. unfold dict_get, persisted. cbn. rewrite lookup_insert_eq. reflexivity. Qed.

(** [next_step] on a step that has a successor. *)
Lemma next_step_moves env w x y :
  (x, y) ∈ [(STEP_NONE, STEP_INIT); (STEP_INIT, STEP_TEST_SWITCH);
            (STEP_TEST_SWITCH, STEP_TEST_UPDATE);
            (STEP_TEST_UPDATE, STEP_TEST_ROLLBACK);
            (STEP_TEST_ROLLBACK, STEP_END)] ->
  dict_get (self_state w) VALIDATION_STEP_KEY = PStr x ->
  open_write_ok env (trace w) = true ->
  next_step env w = (Ret (PStr y), persisted w VALIDATION_STEP_KEY (PStr y)).
Proof.
  intros Hxy Hcur Hw. unfold next_step, _set_step.
  unfold mbind at 1, M_bind at 1. rewrite get_step_eq. cbn beta iota. rewrite Hcur.
  repeat (apply elem_of_cons in Hxy as [[= -> ->] | Hxy]);
    [ .. | apply elem_of_nil in Hxy; contradiction ];
    vm_compute py_eqb; cbn beta iota;
    unfold mbind, M_bind; rewrite _set_state_eq, Hw; cbn beta iota;
    rewrite get_step_eq, step_of_persisted; reflexivity.
Qed.

Lemma step_pairs i x y :
  step_order !! i = Some x -> step_order !! S i = Some y ->
  (x, y) ∈ [(STEP_NONE, STEP_INIT); (STEP_INIT, STEP_TEST_SWITCH);
            (STEP_TEST_SWITCH, STEP_TEST_UPDATE);
            (STEP_TEST_UPDATE, STEP_TEST_ROLLBACK);
            (STEP_TEST_ROLLBACK, STEP_END)].
Proof.
  intros Hx Hy.
  do 5 (destruct i as [|i]; [ injection Hx as <-; injection Hy as <-; set_solver | ]).
  destruct i; discriminate.
Qed.

Lemma next_step_at_end env w :
  dict_get (self_state w) VALIDATION_STEP_KEY = PStr STEP_END ->
  next_step env w = (Ret (PStr STEP_END), w).
Proof.
  intros Hcur. unfold next_step.
  unfold mbind at 1, M_bind at 1. rewrite get_step_eq. cbn beta iota. rewrite Hcur.
  vm_compute py_eqb. cbn beta iota. unfold mbind, M_bind, mret, M_ret.
  rewrite get_step_eq, Hcur. reflexivity.
Qed.

Lemma next_step_unknown env w :
  (forall x, x ∈ step_order -> dict_get (self_state w) VALIDATION_STEP_KEY <> PStr x) ->
  next_step env w
  = (Raise Exception_,
     log_to w [Error ("could not get next step after "
                      ++ py_str (dict_get (self_state w) VALIDATION_STEP_KEY)
                      ++ ", aborting")]).
Proof.
  intros Hcur. unfold next_step.
  unfold mbind at 1, M_bind at 1. rewrite get_step_eq. cbn beta iota.
  repeat match goal with
         | |- context [py_eqb ?a (PStr ?x)] =>
             rewrite (proj2 (py_eqb_neq a (PStr x)))
               by (apply Hcur; unfold step_order; set_solver)
         end.
  reflexivity.
Qed.

(** C5.  For every step but [END], [next_step] stores and returns the
    successor in the order [NONE, INIT, TEST_SWITCH, TEST_UPDATE,
    TEST_ROLLBACK, END]; from [END] it changes nothing and returns [END];
    for a value that is no step (a missing step included) it raises and
    leaves the record alone. *)
Theorem next_step_follows_order env w :
  let cur := dict_get (self_state w) VALIDATION_STEP_KEY in
  (forall i x y,
      step_order !! i = Some x -> step_order !! S i = Some y ->
      cur = PStr x -> open_write_ok env (trace w) = true ->
      next_step env w = (Ret (PStr y), persisted w VALIDATION_STEP_KEY (PStr y)))
  /\ (cur = PStr STEP_END -> next_step env w = (Ret (PStr STEP_END), w))
  /\ ((forall x, x ∈ step_order -> cur <> PStr x) ->
      exists msg, next_step env w = (Raise Exception_, log_to w [Error msg])).
Proof.
  cbn zeta. split; [|split].
  - intros i x y Hx Hy Hcur Hw.
    apply (next_step_moves env w x y);
      [ eapply step_pairs; eassumption | assumption | assumption ].
  - apply next_step_at_end.
  - intros Hcur. eexists. apply next_step_unknown, Hcur.
Qed.

Lemma next_step_follows_order_witness :
  next_step update_on_a_device (mmc_world STEP_TEST_SWITCH CURRENT_ROOT_B)
  = (Ret (PStr STEP_TEST_UPDATE),
     persisted (mmc_world STEP_TEST_SWITCH CURRENT_ROOT_B)
       VALIDATION_STEP_KEY (PStr STEP_TEST_UPDATE)).
Proof.
  apply (proj1 (next_step_follows_order update_on_a_device
                  (mmc_world STEP_TEST_SWITCH CURRENT_ROOT_B))
           2%nat STEP_TEST_SWITCH STEP_TEST_UPDATE);
    reflexivity.
Defined.


(** C9.  Each mutation of the record ([_set_state], and through it
    [set_expected_root], [_set_step] and a step change by [next_step])
    has written the whole in-memory record to the state file by the time
    it returns: the file then holds exactly the record in memory. *)
Theorem mutations_write_through env w w' :
  (forall key value,
      _set_state env key value w = (Ret tt, w') ->
      self_state w' = <[key := value]> (self_state w)
      /\ state_file w' = JsonObject (self_state w')
      /\ trace w' = (trace w ++ [WriteState (self_state w')])%list)
  /\ (forall value,
      set_expected_root env value w = (Ret tt, w') ->
      self_state w' = <[EXPECTED_ROOT_KEY := value]> (self_state w)
      /\ state_file w' = JsonObject (self_state w'))
  /\ (forall step,
      _set_step env step w = (Ret tt, w') ->
      self_state w' = <[VALIDATION_STEP_KEY := PStr step]> (self_state w)
      /\ state_file w' = JsonObject (self_state w'))
  /\ (forall step,
      next_step env w = (Ret step, w') ->
      self_state w' <> self_state w ->
      state_file w' = JsonObject (self_state w')).
Proof.
  split; [|split; [|split]].
  - intros key value Hrun.
    apply _set_state_returns in Hrun as [_ ->]. repeat split.
  - intros value Hrun. unfold set_expected_root in Hrun.
    apply _set_state_returns in Hrun as [_ ->]. repeat split.
  - intros step Hrun. unfold _set_step in Hrun.
    apply _set_state_returns in Hrun as [_ ->]. repeat split.
  - intros step Hrun Hchanged.
    unfold next_step, _set_step in Hrun.
    unfold mbind at 1, M_bind at 1 in Hrun. rewrite get_step_eq in Hrun.
    cbn beta iota in Hrun.
    repeat match type of Hrun with
           | context [if py_eqb ?a ?b then _ else _] => destruct (py_eqb a b)
           end.
    1-5: unfold mbind, M_bind in Hrun; rewrite _set_state_eq in Hrun;
         destruct (open_write_ok env (trace w)); [|discriminate];
         rewrite get_step_eq in Hrun; injection Hrun as _ <-; reflexivity.
    + injection Hrun as _ <-. contradiction.
    + discriminate.
Qed.

Lemma mutations_write_through_witness :
  let w := mmc_world STEP_TEST_SWITCH CURRENT_ROOT_A in
  let w' := persisted w EXPECTED_ROOT_KEY (PStr CURRENT_ROOT_B) in
  self_state w' = <[EXPECTED_ROOT_KEY := PStr CURRENT_ROOT_B]> (self_state w)
  /\ state_file w' = JsonObject (self_state w').
Proof.
  cbn zeta.
  apply (proj1 (proj2 (mutations_write_through update_on_a_device
                         (mmc_world STEP_TEST_SWITCH CURRENT_ROOT_A)
                         (persisted (mmc_world STEP_TEST_SWITCH CURRENT_ROOT_A)
                            EXPECTED_ROOT_KEY (PStr CURRENT_ROOT_B))))
           (PStr CURRENT_ROOT_B)).
  reflexivity.
Defined.

(** ** Configuration *)

(** [read_file_int] on any file: what it binds, and how it ends. *)
Lemma read_file_int_eq env relative_path w :
  read_file_int env relative_path w =
    (match config_error (read_json env (os_path_join root_path relative_path)) with
     | None => Ret tt
     | Some e => Raise e
     end,
     {| self_config :=
          dict_update (self_config w)
            (contributed (read_json env (os_path_join root_path relative_path)));
        self_state := self_state w; state_file := state_file w;
        trace := trace w |}).
Proof.
  unfold read_file_int, contributed, config_error, dict_update.
  destruct (read_json env (os_path_join root_path relative_path))
    as [| | | |d|taken [u|]];
    cbn; rewrite ?(left_id_L ∅ (∪)); destruct w; reflexivity.
Qed.

Lemma lookup_dict_update (d other : gmap string pyval) key :
  dict_update d other !! key =
    match other !! key with
    | Some v => Some v
    | None => d !! key
    end.
Proof.
  unfold dict_update. rewrite lookup_union.
  destruct (other !! key), (d !! key); reflexivity.
Qed.

(** [__init__] never touches [self.config] after the two reads. *)
Lemma init_config env w :
  config_loads env ->
  self_config (PersistentState_init env w).2 =
    dict_update (dict_update ∅ (contributed (read_json env client_config_path)))
      (contributed (read_json env device_config_path)).
Proof.
  intros [Hclient Hdevice].
  remember (PersistentState_init env w) as R eqn:HR.
  unfold PersistentState_init in HR.
  unfold mbind at 1, M_bind at 1 in HR. unfold put_self_config at 1 in HR.
  cbn beta iota in HR.
  unfold mbind at 1, M_bind at 1 in HR. rewrite read_file_int_eq in HR.
  fold client_config_path in HR. rewrite Hclient in HR.
  cbn beta iota in HR.
  unfold mbind at 1, M_bind at 1 in HR. rewrite read_file_int_eq in HR.
  fold device_config_path in HR. rewrite Hdevice in HR.
  cbn beta iota in HR. cbn [self_config self_state state_file trace] in HR.
  unfold _load_state, _get_state in HR.
  mstep HR.
  cbn [self_config self_state state_file trace] in HR.
  destruct (state_file w); cbn beta iota in HR;
    cbn [self_config self_state state_file trace] in HR;
    repeat match type of HR with
           | context [if ?c then _ else _] => destruct c; cbn beta iota in HR
           end;
    subst R; reflexivity.
Qed.

(** C1, as the code has it.  After the two configuration files are read
    (a file that is absent or not JSON is skipped and contributes
    nothing), a key that the later file (the device configuration)
    defines has the later file's value; only a key the later file does
    not define keeps the value of the first file.  This holds for every
    key, [RootfsPartA] and [RootfsPartB] included. *)
Theorem config_merge_last_read_wins env w key :
  config_loads env ->
  self_config (PersistentState_init env w).2 !! key =
    match contributed (read_json env device_config_path) !! key with
    | Some v => Some v
    | None => contributed (read_json env client_config_path) !! key
    end.
Proof.
  intros Hloads.
  rewrite (init_config env w Hloads), !lookup_dict_update, lookup_empty.
  destruct (contributed (read_json env device_config_path) !! key); [reflexivity|].
  destruct (contributed (read_json env client_config_path) !! key); reflexivity.
Qed.

Lemma config_merge_last_read_wins_witness :
  config_loads layered_device
  /\ self_config (PersistentState_init layered_device (boot NoFile)).2 !! ROOTFS_B_KEY
     = match contributed (read_json layered_device device_config_path)
               !! ROOTFS_B_KEY with
       | Some v => Some v
       | None =>
           contributed (read_json layered_device client_config_path) !! ROOTFS_B_KEY
       end.
Proof.
  split; [ split; reflexivity | ].
  apply (config_merge_last_read_wins layered_device (boot NoFile) ROOTFS_B_KEY).
  split; reflexivity.
Defined.

(** C1, as stated, fails: [RootfsPartA] is read first as [/dev/sda2] and
    then as [/dev/mmcblk0p2], and the configuration ends with the second. *)
Lemma config_merge_first_read_loses :
  contributed (read_json layered_device client_config_path) !! ROOTFS_A_KEY
    = Some (PStr "/dev/sda2")
  /\ contributed (read_json layered_device device_config_path) !! ROOTFS_A_KEY
    = Some (PStr "/dev/mmcblk0p2")
  /\ self_config (PersistentState_init layered_device (boot NoFile)).2 !! ROOTFS_A_KEY
    = Some (PStr "/dev/mmcblk0p2")
  /\ self_config (PersistentState_init layered_device (boot NoFile)).2 !! ROOTFS_A_KEY
    <> Some (PStr "/dev/sda2").
Proof. repeat split; try reflexivity. vm_compute. discriminate. Qed.


(** ** Commands and the bootloader environment *)

Lemma run_command_world env cmd w r w' :
  run_command env cmd w = (r, w') ->
  (exists b, r = Ret b) /\ w' = log_to w (attempt cmd).
Proof.
  unfold run_command, subprocess_run_caught, attempt. intros HR.
  destruct (argv_of cmd) as [argv|].
  - mstep HR. destruct (subprocess_run env (trace w) argv) as [[| |]|];
      injection HR as <- <-; split; eauto.
  - mstep HR. injection HR as <- <-. rewrite log_to_nil. split; eauto.
Qed.

Lemma set_env_variable_world env name value w r w' :
  set_env_variable env name value w = (r, w') ->
  (exists b, r = Ret b)
  /\ w' = log_to w (attempt [dict_get (self_state w) SET_CMD_KEY; PStr name; PStr value]).
Proof.
  unfold set_env_variable, get_env_set_cmd, _get_state. intros HR.
  mstep HR. apply run_command_world in HR. exact HR.
Qed.

Lemma set_env_variable_ok env name value w w' :
  set_env_variable env name value w = (Ret true, w') ->
  exists set_cmd,
    dict_get (self_state w) SET_CMD_KEY = PStr set_cmd
    /\ w' = log_to w [Spawn [set_cmd; name; value]].
Proof.
  unfold set_env_variable, get_env_set_cmd, _get_state, run_command,
    subprocess_run_caught. intros HR. mstep HR.
  destruct (dict_get (self_state w) SET_CMD_KEY) as [|set_cmd]; cbn in HR.
  - discriminate.
  - exists set_cmd. split; [reflexivity|].
    destruct (subprocess_run env (trace w) [set_cmd; name; value]) as [[| |]|];
      try discriminate.
    injection HR as <-. reflexivity.
Qed.














(** ** Preparation *)

Lemma get_inactive_bootpart_info_pure current w :
  exists inactive, get_inactive_bootpart_info current w = (Ret inactive, w).
Proof.
  unfold get_inactive_bootpart_info.
  destruct (bool_decide (current = CURRENT_ROOT_A));
    [ eexists; reflexivity | ].
  destruct (bool_decide (current = CURRENT_ROOT_B)); eexists; reflexivity.
Qed.

Ltac lookup_inactive H :=
  match type of H with
  | context [get_inactive_bootpart_info ?c ?w] =>
      let i := fresh "inactive" in let Ei := fresh "Ei" in
      destruct (get_inactive_bootpart_info_pure c w) as [i Ei];
      rewrite Ei in H
  end.

Lemma prepare_update_eq env v w :
  s v = PStr STEP_TEST_UPDATE -> prepare env v w = prepare_test_update env v w.
Proof. intros H. unfold prepare. rewrite H. reflexivity. Qed.

Lemma prepare_rollback_eq env v w :
  s v = PStr STEP_TEST_ROLLBACK -> prepare env v w = prepare_test_rollback env v w.
Proof. intros H. unfold prepare. rewrite H. reflexivity. Qed.

(** *** The mount point behind the temporary directory *)

Lemma mounted_from_app env done a b dir m :
  mounted_from env done (a ++ b) dir m
  = mounted_from env (done ++ a) b dir (mounted_from env done a dir m).
Proof.
  revert done m. induction a as [|e a IH]; intros done m; cbn [app mounted_from].
  - rewrite app_nil_r. reflexivity.
  - rewrite IH, <- app_assoc. reflexivity.
Qed.

Lemma still_mounted_app env tr l dir :
  still_mounted env (tr ++ l) dir
  = mounted_from env tr l dir (still_mounted env tr dir).
Proof. unfold still_mounted. rewrite mounted_from_app. reflexivity. Qed.


Lemma cleanup_eq env dir w :
  cleanup env dir w
  = if still_mounted env (trace w) dir
    then (Raise OSError, log_to w [RmTempFailed dir])
    else (Ret tt, log_to w [RmTemp dir]).
Proof.
  unfold cleanup, mbind, M_bind, get_trace, emit, raise.
  destruct (still_mounted env (trace w) dir); reflexivity.
Qed.

(** What [run_command] has seen when it answers [False]. *)
Lemma run_command_false env cmd w w1 :
  run_command env cmd w = (Ret false, w1) ->
  match argv_of cmd with
  | Some argv => exited_ok (subprocess_run env (trace w) argv) = false
  | None => True
  end.
Proof.
  unfold run_command, subprocess_run_caught. intros HR.
  destruct (argv_of cmd) as [argv|]; [|exact I]. mstep HR.
  destruct (subprocess_run env (trace w) argv) as [[| |] out|];
    try reflexivity; discriminate.
Qed.

(** A mount that has failed leaves the directory as it was. *)
Lemma failed_mount_not_mounted env cmd w w1 dir l :
  run_command env cmd w = (Ret false, w1) ->
  Forall (fun e => forall tr m, mount_step env tr e dir m = m) l ->
  still_mounted env (trace w1 ++ l) dir = still_mounted env (trace w) dir.
Proof.
  intros Hrun Hl.
  pose proof (run_command_false _ _ _ _ Hrun) as Hexit.
  apply run_command_world in Hrun as [_ ->].
  rewrite still_mounted_app.
  assert (Hskip : forall done m, mounted_from env done l dir m = m).
  { induction Hl as [|e l He _ IH]; intros done m; cbn [mounted_from];
      [reflexivity | rewrite He; apply IH]. }
  rewrite Hskip. cbn [log_to trace]. rewrite still_mounted_app.
  unfold attempt. destruct (argv_of cmd) as [argv|]; cbn [mounted_from mount_step];
    [ rewrite Hexit | ]; reflexivity.
Qed.






(** ** Mount identification *)

Lemma run_command_get_output_world env cmd w r w' :
  run_command_get_output env cmd w = (r, w') ->
  (exists out, r = Ret out) /\ w' = log_to w (attempt cmd).
Proof.
  unfold run_command_get_output, subprocess_run_caught, attempt. intros HR.
  destruct (argv_of cmd) as [argv|].
  - mstep HR. destruct (subprocess_run env (trace w) argv) as [[| |]|];
      injection HR as <- <-; split; eauto.
  - mstep HR. injection HR as <- <-. rewrite log_to_nil. split; eauto.
Qed.

(** The answer of [identify_mounted_root] in terms of its three probes. *)
Lemma identify_mounted_root_probes env w root a b w1 w2 w3 :
  run_command_get_output env
    [PStr "stat"; PStr "-c"; PStr "%D"; PStr root_path] w = (Ret root, w1) ->
  run_command_get_output env
    [PStr "stat"; PStr "-c"; PStr "%t%02T"; dict_get (self_state w) ROOTFS_A_KEY] w1
    = (Ret a, w2) ->
  run_command_get_output env
    [PStr "stat"; PStr "-c"; PStr "%t%02T"; dict_get (self_state w) ROOTFS_B_KEY] w2
    = (Ret b, w3) ->
  identify_mounted_root env w
  = (Ret (if bool_decide (root = a) then CURRENT_ROOT_A
          else if bool_decide (root = b) then CURRENT_ROOT_B
          else CURRENT_ROOT_UNDEFINED), w3).
Proof.
  intros E1 E2 E3.
  pose proof E1 as [_ H1]%run_command_get_output_world.
  pose proof E2 as [_ H2]%run_command_get_output_world.
  assert (Hs1 : self_state w1 = self_state w) by (rewrite H1; reflexivity).
  assert (Hs2 : self_state w2 = self_state w) by (rewrite H2, <- Hs1; reflexivity).
  clear H1 H2.
  remember (identify_mounted_root env w) as R eqn:HR.
  unfold identify_mounted_root, get_root_part_device_a, get_root_part_device_b,
    _get_state in HR.
  mstep HR. simp HR. rewrite Hs1 in HR. simp HR. rewrite Hs2 in HR. simp HR.
  exact HR.
Qed.

(** When the probe of the root mount has an answer, [A] and [B] are only
    returned for a partition whose probe gave the same answer. *)
Lemma identified_root_matches env w id a b w1 w2 w3 answer w' :
  run_command_get_output env
    [PStr "stat"; PStr "-c"; PStr "%D"; PStr root_path] w = (Ret (Some id), w1) ->
  run_command_get_output env
    [PStr "stat"; PStr "-c"; PStr "%t%02T"; dict_get (self_state w) ROOTFS_A_KEY] w1
    = (Ret a, w2) ->
  run_command_get_output env
    [PStr "stat"; PStr "-c"; PStr "%t%02T"; dict_get (self_state w) ROOTFS_B_KEY] w2
    = (Ret b, w3) ->
  identify_mounted_root env w = (Ret answer, w') ->
  (answer = CURRENT_ROOT_A -> a = Some id)
  /\ (answer = CURRENT_ROOT_B -> b = Some id)
  /\ (a <> Some id -> b <> Some id -> answer = CURRENT_ROOT_UNDEFINED).
Proof.
  intros E1 E2 E3 HR.
  rewrite (identify_mounted_root_probes _ _ _ _ _ _ _ _ E1 E2 E3) in HR.
  injection HR as <- _.
  destruct (bool_decide_reflect (Some id = a)) as [<-|Ha];
    [ repeat split; [discriminate | congruence] | ].
  destruct (bool_decide_reflect (Some id = b)) as [<-|Hb];
    repeat split; try discriminate; congruence.
Qed.

(** C2 at its failing input: [stat] cannot be run, all three probes fail,
    and the two missing identifiers compare equal: the answer is [A]. *)
Theorem identify_mounted_root_without_stat :
  let w := mmc_world STEP_TEST_SWITCH CURRENT_ROOT_B in
  identify_mounted_root no_stat_device w
  = (Ret CURRENT_ROOT_A,
     log_to w [Spawn ["stat"; "-c"; "%D"; "/"];
               Spawn ["stat"; "-c"; "%t%02T"; "/dev/mmcblk0p2"];
               Spawn ["stat"; "-c"; "%t%02T"; "/dev/mmcblk0p3"]]).
Proof. vm_compute. reflexivity. Qed.

(** ** Reading a variable *)

(** C3 at its failing input: the print command succeeds and prints
    nothing, the parsed output has no entry for the name, and the
    subscript raises [KeyError] out of [assert_env_variable]. *)
Theorem assert_env_variable_missing_name :
  let w := mmc_world STEP_TEST_UPDATE CURRENT_ROOT_A in
  Regex.findall_assignment (strip "") = []
  /\ assert_env_variable silent_print_device ENV_KEY_BOOTCOUNT "1" w
     = (Raise KeyError, log_to w [Spawn [PRINT_CMD_UBOOT; ENV_KEY_BOOTCOUNT]]).
Proof. split; vm_compute; reflexivity. Qed.

(** What does hold: a failed print command gives [False]. *)
Lemma assert_env_variable_command_failure env name expect w print_cmd rc out :
  dict_get (self_state w) PRINT_CMD_KEY = PStr print_cmd ->
  subprocess_run env (trace w) [print_cmd; name] = SpawnError
  \/ (subprocess_run env (trace w) [print_cmd; name] = Exited rc out /\ rc <> 0) ->
  assert_env_variable env name expect w
  = (Ret false, log_to w [Spawn [print_cmd; name]]).
Proof.
  intros Hcmd Hrun.
  unfold assert_env_variable, get_env_print_cmd, _get_state,
    run_command_get_output, subprocess_run_caught.
  remember (subprocess_run env (trace w) [print_cmd; name]) as result eqn:Hres.
  unfold mbind at 1, M_bind at 1. unfold mbind at 1, M_bind at 1.
  unfold get_self_state at 1, mret at 1, M_ret at 1. cbn beta iota.
  rewrite Hcmd. cbn [argv_of].
  unfold mbind, M_bind, mret, M_ret, emit, get_trace. cbn beta iota.
  rewrite <- Hres.
  destruct Hrun as [-> | [-> Hrc]]; [reflexivity|].
  destruct rc; [contradiction | reflexivity | reflexivity].
Qed.

(** And a printed assignment of the name compares its value. *)
Lemma assert_env_variable_compares env name expect w print_cmd out found :
  dict_get (self_state w) PRINT_CMD_KEY = PStr print_cmd ->
  subprocess_run env (trace w) [print_cmd; name] = Exited 0 out ->
  py_dict (Regex.findall_assignment (strip out)) !! name = Some found ->
  (assert_env_variable env name expect w).1 = Ret (bool_decide (found = expect)).
Proof.
  intros Hcmd Hrun Hfound.
  unfold assert_env_variable, get_env_print_cmd, _get_state,
    run_command_get_output, subprocess_run_caught.
  unfold mbind at 1, M_bind at 1. unfold mbind at 1, M_bind at 1.
  unfold get_self_state at 1, mret at 1, M_ret at 1. cbn beta iota.
  rewrite Hcmd. cbn [argv_of].
  unfold mbind, M_bind, mret, M_ret, emit, get_trace. cbn beta iota.
  rewrite Hrun. cbn beta iota. rewrite Hfound.
  destruct (bool_decide (found = expect)); reflexivity.
Qed.

(** ** The verdict *)

(** A failed evaluation is not followed by a step advance. *)
Lemma no_advance_after_failure env v w :
  keep_going v = false -> advance env v w = (Ret v, w).
Proof. intros H. unfold advance. rewrite H. reflexivity. Qed.

(** A run that does not keep going does not reboot: it disables the
    service, removes the state file and logs the verdict. *)
Lemma stopped_run_finalizes env v w :
  keep_going v = false ->
  os_remove_ok env (trace w ++ [Spawn ["systemctl"; "disable";
                                      "mender-bootloader-validation.service"]]) = true ->
  last_stage env v w
  = (Ret tt,
     {| self_config := self_config w; self_state := self_state w;
        state_file := NoFile;
        trace := trace w
                 ++ [Spawn ["systemctl"; "disable";
                            "mender-bootloader-validation.service"];
                     RemoveState;
                     Info (match fail_reason v with
                           | None => "BOOTLOADER VALIDATION: SUCCESS"
                           | Some reason =>
                               "BOOTLOADER VALIDATION: FAILURE - " ++ reason
                           end)] |}).
Proof.
  intros Hk Hrm. unfold last_stage. rewrite Hk.
  unfold finalize, clean, run_command, subprocess_run_caught, info. cbn [argv_of].
  unfold mbind, M_bind, mret, M_ret, emit, get_trace, put_state_file.
  cbn beta iota.
  destruct (subprocess_run env (trace w) _) as [[| |]|]; cbn beta iota;
    cbn [trace]; rewrite Hrm; cbn beta iota;
    destruct (fail_reason v); cbn; rewrite <- !app_assoc; reflexivity.
Qed.

(** C4 at its failing input.  The device runs from A while the record
    expects B after the update.  The evaluation records "update test did
    not match expected root: root_b"; the preparation of the same step
    then records its own reason over it, and the verdict carries that one:
    FAILURE, but not with the reason the evaluation recorded. *)
Theorem verdict_loses_evaluation_reason :
  let w := boot (JsonObject (mmc_state STEP_TEST_UPDATE CURRENT_ROOT_B)) in
  (script update_on_a_device w).1
  = Ret (failed (entering CURRENT_ROOT_A (PStr STEP_TEST_UPDATE))
           "could not identify partition numbers for update, aborting")
  /\ trace (script update_on_a_device w).2
     = [Spawn ["stat"; "-c"; "%D"; "/"];
        Spawn ["stat"; "-c"; "%t%02T"; "/dev/mmcblk0p2"];
        Spawn ["stat"; "-c"; "%t%02T"; "/dev/mmcblk0p3"];
        Info "update test did not match expected root: root_b";
        Spawn ["fw_printenv"; "bootcount"]; Info "success!";
        Spawn ["fw_printenv"; "upgrade_available"]; Info "success!";
        Info "could not identify partition numbers for update, aborting";
        Spawn ["systemctl"; "disable"; "mender-bootloader-validation.service"];
        RemoveState;
        Info "BOOTLOADER VALIDATION: FAILURE - could not identify partition numbers for update, aborting"].
Proof. split; vm_compute; reflexivity. Qed.

(** The same run on a device whose print command prints nothing: the
    reason is recorded, the assertion raises, and the run ends there,
    with the service enabled and the state file in place. *)
Example recorded_failure_without_verdict :
  let w := boot (JsonObject (mmc_state STEP_TEST_UPDATE CURRENT_ROOT_B)) in
  (script silent_print_device w).1 = Raise KeyError
  /\ trace (script silent_print_device w).2
     = [Spawn ["stat"; "-c"; "%D"; "/"];
        Spawn ["stat"; "-c"; "%t%02T"; "/dev/mmcblk0p2"];
        Spawn ["stat"; "-c"; "%t%02T"; "/dev/mmcblk0p3"];
        Info "update test did not match expected root: root_b";
        Spawn ["fw_printenv"; "bootcount"]]
  /\ state_file (script silent_print_device w).2
     = JsonObject (mmc_state STEP_TEST_UPDATE CURRENT_ROOT_B).
Proof. repeat split; vm_compute; reflexivity. Qed.


(** ** Every run that comes to its end *)

Arguments set_expected_root : simpl never.
Arguments set_mender_bootpart : simpl never.
Arguments create_initial_state : simpl never.
Arguments next_step : simpl never.

(** Case analysis on whatever decides the next step of a computation. *)
Ltac fork_any H :=
  first
    [ lookup_inactive H
    | fork H
    | match type of H with
      | context [if ?c then _ else _] =>
          let E := fresh "E" in destruct c eqn:E
      | context [match ?x with Some _ => _ | None => _ end] =>
          let E := fresh "E" in destruct x as [?found|] eqn:E
      end ].

Ltac crunch_any H := mstep H; simp H; repeat (fork_any H; simp H).

Ltac close_coherent :=
  match goal with
  | HR : (_, _) = (Ret _, _) |- _ => inversion HR; subst; clear HR
  | HR : (_, _) = (Raise _, _) |- _ => discriminate HR
  | HR : (Raise _, _) = (Ret _, _) |- _ => discriminate HR
  end;
  unfold coherent in *; cbn [keep_going fail_reason failed s stop set_s] in *;
  intuition congruence.

Lemma evaluate_coherent env v w v' w' :
  coherent v -> keep_going v = true ->
  evaluate env v w = (Ret v', w') -> coherent v'.
Proof.
  intros Hv Hk HR. symmetry in HR.
  unfold evaluate, evaluate_test_switch, evaluate_test_update,
    evaluate_test_rollback, get_expected_root, _get_state in HR.
  crunch_any HR; close_coherent.
Qed.

Lemma advance_coherent env v w v' w' :
  coherent v -> advance env v w = (Ret v', w') ->
  coherent v' /\ (keep_going v = false -> v' = v /\ w' = w).
Proof.
  intros Hv HR. symmetry in HR. unfold advance in HR.
  crunch_any HR; inversion HR; subst; clear HR;
    unfold coherent in *; cbn [keep_going fail_reason s set_s] in *;
    intuition congruence.
Qed.

Lemma prepare_coherent env v w v' w' :
  coherent v -> prepare env v w = (Ret v', w') ->
  (keep_going v' = true -> fail_reason v' = None)
  /\ (keep_going v' = false -> fail_reason v' = None -> s v' = PStr STEP_END).
Proof.
  intros Hv HR. symmetry in HR.
  unfold prepare, prepare_init, prepare_test_switch, prepare_test_update,
    prepare_test_rollback, inject_fault, finally in HR.
  crunch_any HR;
    try match goal with
        | E : py_eqb (s _) (PStr STEP_END) = true |- _ => apply py_eqb_eq in E
        end;
    inversion HR; subst; clear HR;
    unfold coherent in *; cbn [keep_going fail_reason failed s stop set_s] in *;
    intuition congruence.
Qed.

Lemma bind_returns {A B} (m : M A) (f : A -> M B) w b w' :
  (m ≫= f) w = (Ret b, w') ->
  exists a w1, m w = (Ret a, w1) /\ f a w1 = (Ret b, w').
Proof.
  unfold mbind, M_bind. destruct (m w) as [[a|e] w1]; [eauto | discriminate].
Qed.

Lemma last_stage_returns env v w w' :
  last_stage env v w = (Ret tt, w') ->
  if keep_going v then w' = log_to w [Spawn ["reboot"]]
  else w' = {| self_config := self_config w; self_state := self_state w;
               state_file := NoFile;
               trace := trace w
                        ++ [Spawn ["systemctl"; "disable";
                                   "mender-bootloader-validation.service"];
                            RemoveState;
                            Info (match fail_reason v with
                                  | None => "BOOTLOADER VALIDATION: SUCCESS"
                                  | Some reason =>
                                      "BOOTLOADER VALIDATION: FAILURE - " ++ reason
                                  end)] |}.
Proof.
  unfold last_stage. destruct (keep_going v) eqn:Hk.
  - unfold reboot. intros (b & w1 & Hrun & Hret)%bind_returns.
    apply run_command_world in Hrun as [_ ->]. injection Hret as <-. reflexivity.
  - intros HR.
    destruct (os_remove_ok env
                (trace w ++ [Spawn ["systemctl"; "disable";
                                    "mender-bootloader-validation.service"]])) eqn:Hrm.
    + pose proof (stopped_run_finalizes env v w Hk Hrm) as Hfin.
      unfold last_stage in Hfin. rewrite Hk in Hfin. rewrite Hfin in HR.
      injection HR as <-. reflexivity.
    + exfalso. revert HR.
      unfold finalize, clean, run_command, subprocess_run_caught, info. cbn [argv_of].
      unfold mbind, M_bind, mret, M_ret, emit, raise, get_trace, put_state_file.
      cbn beta iota.
      destruct (subprocess_run env (trace w) _) as [[| |]|]; cbn beta iota;
        cbn [trace]; rewrite Hrm; discriminate.
Qed.

(** Every run that comes to its end either reboots, and then has no
    failure reason, or disables the service, removes the state file and
    logs the verdict: FAILURE with the reason the run holds at that point,
    the last one recorded by evaluation or preparation, or SUCCESS, which
    needs the step [END] and no reason. *)
Lemma stages_verdict env w v w' :
  stages env w = (Ret v, w') ->
  exists w0,
    if keep_going v then
      fail_reason v = None /\ w' = log_to w0 [Spawn ["reboot"]]
    else
      (fail_reason v = None -> s v = PStr STEP_END)
      /\ state_file w' = NoFile
      /\ trace w'
         = (trace w0
            ++ [Spawn ["systemctl"; "disable"; "mender-bootloader-validation.service"];
                RemoveState;
                Info (match fail_reason v with
                      | None => "BOOTLOADER VALIDATION: SUCCESS"
                      | Some reason => "BOOTLOADER VALIDATION: FAILURE - " ++ reason
                      end)])%list.
Proof.
  unfold stages, first_stage, second_stage.
  intros (v1 & w1 & Hfirst & Hrest)%bind_returns.
  apply bind_returns in Hrest as (v2 & w2 & Hsecond & Hlast).
  apply bind_returns in Hlast as ([] & w3 & Hlast & Hret).
  injection Hret as <- <-.
  apply bind_returns in Hfirst as (root & wa & _ & Hfirst).
  apply bind_returns in Hfirst as (step & wb & _ & Heval).
  apply evaluate_coherent in Heval; [ | split; [reflexivity | discriminate] | reflexivity ].
  apply bind_returns in Hsecond as (v1' & wc & Hadv & Hprep).
  apply advance_coherent in Hadv as [Hv1' _]; [ | exact Heval ].
  apply prepare_coherent in Hprep as [Hgo Hstop]; [ | exact Hv1' ].
  apply last_stage_returns in Hlast. exists w2.
  destruct (keep_going v2).
  - split; [ apply Hgo; reflexivity | exact Hlast ].
  - subst w3. repeat split. apply Hstop. reflexivity.
Qed.

(** * Further properties of the script *)

(** ** Strings *)

Lemma append_cons c (r t : string) : String c r ++ t = String c (r ++ t).
Proof. reflexivity. Qed.

Lemma append_empty_r (t : string) : t ++ "" = t.
Proof.
  induction t as [|c r IH]; [reflexivity | rewrite append_cons, IH; reflexivity].
Qed.

Lemma append_assoc (a b c : string) : (a ++ b) ++ c = a ++ (b ++ c).
Proof.
  induction a as [|x a IH]; [reflexivity | rewrite !append_cons, IH; reflexivity].
Qed.

Lemma append_length (a b : string) :
  String.length (a ++ b) = (String.length a + String.length b)%nat.
Proof.
  induction a as [|x a IH]; [reflexivity|].
  rewrite append_cons. cbn [String.length]. rewrite IH. reflexivity.
Qed.

Lemma ends_with_cons p c r :
  ends_with p (String c r) = if is_empty r then p c else ends_with p r.
Proof. destruct r; reflexivity. Qed.

Lemma is_empty_app (a b : string) : is_empty b = false -> is_empty (a ++ b) = false.
Proof. destruct a; [intros H; exact H | reflexivity]. Qed.

Lemma ends_with_app p (a b : string) :
  is_empty b = false -> ends_with p (a ++ b) = ends_with p b.
Proof.
  intros Hb. induction a as [|c r IH]; [reflexivity|].
  rewrite append_cons, ends_with_cons, (is_empty_app r b Hb). exact IH.
Qed.

(** ** [str.strip] *)

Lemma lstrip_starts t : starts_with is_space (lstrip t) = false.
Proof.
  induction t as [|c r IH]; cbn; [reflexivity|].
  destruct (is_space c) eqn:Hc; [exact IH | cbn; exact Hc].
Qed.

Lemma rstrip_starts t :
  starts_with is_space t = false -> starts_with is_space (rstrip t) = false.
Proof.
  destruct t as [|c r]; [reflexivity|]. cbn [starts_with rstrip]. intros H.
  rewrite H. cbn. exact H.
Qed.

Lemma rstrip_ends t : ends_with is_space (rstrip t) = false.
Proof.
  induction t as [|c r IH]; [reflexivity|].
  cbn [rstrip]. destruct (is_space c && is_empty (rstrip r)) eqn:Hc; [reflexivity|].
  rewrite ends_with_cons. destruct (is_empty (rstrip r)); [|exact IH].
  rewrite andb_true_r in Hc. exact Hc.
Qed.

Lemma strip_trimmed t :
  starts_with is_space (strip t) = false /\ ends_with is_space (strip t) = false.
Proof.
  unfold strip. split; [apply rstrip_starts, lstrip_starts | apply rstrip_ends].
Qed.

Lemma rstrip_id t : ends_with is_space t = false -> rstrip t = t.
Proof.
  induction t as [|c r IH]; [reflexivity|].
  rewrite ends_with_cons. cbn [rstrip]. destruct r as [|d r'].
  - cbn. intros ->. reflexivity.
  - intros H. cbn [is_empty] in H. rewrite (IH H). cbn [is_empty].
    rewrite andb_false_r. reflexivity.
Qed.

Lemma strip_id t :
  starts_with is_space t = false -> ends_with is_space t = false -> strip t = t.
Proof.
  intros Hs He. unfold strip.
  assert (lstrip t = t) as -> by (destruct t as [|c r]; cbn in *; [|rewrite Hs]; reflexivity).
  apply rstrip_id, He.
Qed.

(** ** The assignment pattern *)

Lemma star_greedy_stop {R} p t (k : string -> option R) :
  starts_with p t = false -> Regex.star_greedy p t k = k t.
Proof. destruct t as [|c r]; cbn; [reflexivity | intros ->; reflexivity]. Qed.

Lemma star_lazy_name {R} name acc rest (k : string -> string -> option R) :
  all_chars is_name_char name = true ->
  (forall g c r, is_name_char c = true -> k g (String c r) = None) ->
  Regex.star_lazy not_newline acc (name ++ rest) k
  = Regex.star_lazy not_newline (acc ++ name) rest k.
Proof.
  revert acc. induction name as [|c n IH]; intros acc Hname Hk.
  - rewrite append_empty_r. reflexivity.
  - cbn in Hname. apply andb_true_iff in Hname as [Hc Hn].
    rewrite append_cons. cbn [Regex.star_lazy]. rewrite (Hk _ _ _ Hc).
    assert (Hnl : not_newline c = true).
    { unfold is_name_char in Hc. apply andb_true_iff in Hc as [Hsp _].
      unfold not_newline. destruct (bool_decide_reflect (c = newline)) as [->|]; 
        [discriminate Hsp | reflexivity]. }
    rewrite Hnl, (IH _ Hn Hk), append_assoc, append_cons. reflexivity.
Qed.

Lemma trailing_space_no_end {R} (x : R) t :
  is_empty t = false -> all_chars not_newline t = true ->
  ends_with is_space t = false ->
  Regex.star_greedy is_space t (fun s7 => if Regex.at_end s7 then Some x else None)
  = None.
Proof.
  induction t as [|c r IH]; [discriminate|]. intros _ Hnl Hend.
  cbn in Hnl. apply andb_true_iff in Hnl as [Hc Hr].
  rewrite ends_with_cons in Hend.
  assert (Hhere : (if Regex.at_end (String c r) then Some x else None) = None).
  { destruct r as [|d r']; cbn; [|reflexivity].
    unfold not_newline in Hc. apply negb_true_iff in Hc. rewrite Hc. reflexivity. }
  cbn [Regex.star_greedy]. destruct (is_space c) eqn:Hsp; [|exact Hhere].
  destruct (is_empty r) eqn:Hr0; [congruence|].
  rewrite (IH eq_refl Hr Hend). exact Hhere.
Qed.

Lemma star_lazy_value {R} (f : string -> R) value acc :
  all_chars not_newline value = true -> ends_with is_space value = false ->
  Regex.star_lazy not_newline acc value
    (fun g2 s6 =>
       Regex.star_greedy is_space s6
         (fun s7 => if Regex.at_end s7 then Some (f g2) else None))
  = Some (f (acc ++ value)).
Proof.
  revert acc. induction value as [|c r IH]; intros acc Hnl Hend.
  - cbn. rewrite append_empty_r. reflexivity.
  - cbn [Regex.star_lazy].
    rewrite (trailing_space_no_end (f acc) (String c r) eq_refl Hnl Hend).
    cbn in Hnl. apply andb_true_iff in Hnl as [Hc Hr]. rewrite Hc.
    rewrite ends_with_cons in Hend.
    rewrite IH, append_assoc; [reflexivity | exact Hr |].
    destruct r; [reflexivity | exact Hend].
Qed.

Lemma match_assignment_line name value :
  all_chars is_name_char name = true ->
  all_chars not_newline value = true ->
  starts_with is_space value = false ->
  ends_with is_space value = false ->
  Regex.match_assignment (name ++ "=" ++ value) = Some (name, value).
Proof.
  intros Hname Hnl Hstart Hend.
  unfold Regex.match_assignment.
  rewrite star_greedy_stop.
  2: { destruct name as [|c n]; [reflexivity|]. cbn in *.
       apply andb_true_iff in Hname as [Hc _]. unfold is_name_char in Hc.
       apply andb_true_iff in Hc as [Hc _]. apply negb_true_iff in Hc. exact Hc. }
  rewrite star_lazy_name; [ | exact Hname | ].
  2: { intros g c r Hc. unfold is_name_char in Hc.
       apply andb_true_iff in Hc as [Hsp Heq].
       apply negb_true_iff in Hsp, Heq.
       rewrite star_greedy_stop by exact Hsp.
       apply bool_decide_eq_false in Heq.
       destruct c as [[] [] [] [] [] [] [] []]; try reflexivity.
       exfalso. apply Heq. reflexivity. }
  change ("" ++ name) with name. change ("=" ++ value) with (String "="%char value).
  cbn [Regex.star_lazy].
  rewrite (star_greedy_stop is_space (String "="%char value)) by reflexivity.
  cbn iota beta. rewrite (star_greedy_stop is_space value) by exact Hstart.
  rewrite (star_lazy_value (fun g2 => (name, g2)) value "" Hnl Hend).
  reflexivity.
Qed.

(** The line a print command gives for one variable parses into that
    variable: for a name without whitespace and equals sign, and a value
    on one line without whitespace around it, [name=value] is read as the
    one pair of the name and the value, whatever else the value
    contains. *)
Theorem findall_assignment_line name value :
  all_chars is_name_char name = true ->
  all_chars not_newline value = true ->
  starts_with is_space value = false ->
  ends_with is_space value = false ->
  Regex.findall_assignment (name ++ "=" ++ value) = [(name, value)].
Proof.
  intros Hname Hnl Hstart Hend. unfold Regex.findall_assignment.
  rewrite (match_assignment_line name value Hname Hnl Hstart Hend). reflexivity.
Qed.

Lemma findall_assignment_line_witness :
  Regex.findall_assignment ("bootcount" ++ "=" ++ "1") = [("bootcount", "1")].
Proof. apply findall_assignment_line; reflexivity. Defined.

(** ** Partition numbers *)

Lemma trailing_digits_all digits :
  all_chars is_digit digits = true -> Regex.trailing_digits digits = digits.
Proof.
  induction digits as [|c r IH]; [reflexivity|]. cbn [all_chars].
  intros [Hc Hr]%andb_true_iff. cbn [Regex.trailing_digits].
  rewrite (IH Hr), Hc, Nat.eqb_refl. reflexivity.
Qed.

Lemma trailing_digits_none p :
  ends_with is_digit p = false -> Regex.trailing_digits p = "".
Proof.
  induction p as [|c r IH]; [reflexivity|]. rewrite ends_with_cons.
  cbn [Regex.trailing_digits]. destruct r as [|d r'].
  - cbn. intros ->. reflexivity.
  - cbn [is_empty]. intros H. rewrite (IH H). cbn. rewrite andb_false_r. reflexivity.
Qed.

Lemma trailing_digits_suffix p digits :
  ends_with is_digit p = false -> all_chars is_digit digits = true ->
  is_empty digits = false ->
  Regex.trailing_digits (p ++ digits) = digits.
Proof.
  intros Hp Hd Hne. induction p as [|c r IH].
  - apply trailing_digits_all, Hd.
  - rewrite append_cons. cbn [Regex.trailing_digits].
    rewrite ends_with_cons in Hp. destruct r as [|d r'].
    + cbn [is_empty] in Hp. change ("" ++ digits) with digits.
      rewrite (trailing_digits_all _ Hd), Hp. reflexivity.
    + cbn [is_empty] in Hp. rewrite (IH Hp).
      replace (String.length digits =? String.length (String d r' ++ digits))%nat
        with false; [rewrite andb_false_r; reflexivity|].
      symmetry. apply Nat.eqb_neq. rewrite append_length. cbn. lia.
Qed.

(** [extract_part_number] gives back the number a device path ends in:
    for a path made of a part that does not end in a digit followed by
    one or more digits, the result is exactly those digits. *)
Theorem extract_part_number_suffix p digits w :
  ends_with is_digit p = false -> all_chars is_digit digits = true ->
  is_empty digits = false ->
  extract_part_number (PStr (p ++ digits)) w = (Ret (PStr digits), w).
Proof.
  intros Hp Hd Hne. unfold extract_part_number, Regex.search_trailing_number.
  rewrite (trailing_digits_suffix _ _ Hp Hd Hne), Hne. reflexivity.
Qed.

Lemma extract_part_number_suffix_witness :
  extract_part_number (PStr ("/dev/mmcblk0p" ++ "12")) (boot NoFile)
  = (Ret (PStr "12"), boot NoFile).
Proof. apply extract_part_number_suffix; reflexivity. Defined.

(** A path that ends neither in a digit nor in a line feed has no
    partition number: the result is [None], not an error. *)
Theorem extract_part_number_absent p w :
  ends_with is_digit p = false ->
  ends_with (fun c => bool_decide (c = newline)) p = false ->
  extract_part_number (PStr p) w = (Ret PNone, w).
Proof.
  intros Hp Hnl. unfold extract_part_number, Regex.search_trailing_number.
  rewrite (trailing_digits_none _ Hp). cbn [is_empty negb].
  replace (Regex.ends_with_newline p) with false; [reflexivity|].
  symmetry. rewrite <- Hnl. clear. induction p as [|c r IH]; [reflexivity|].
  rewrite ends_with_cons. cbn [Regex.ends_with_newline].
  destruct r; [reflexivity | exact IH].
Qed.

Lemma extract_part_number_absent_witness :
  extract_part_number (PStr "/dev/root") (boot NoFile) = (Ret PNone, boot NoFile).
Proof. apply extract_part_number_absent; reflexivity. Defined.

(** ** Process running utilities *)

(** [run_command] never raises; it answers [True] exactly when every
    word of the command line is a string and the process exits with 0,
    and a command line with a [None] in it starts no process at all. *)
Theorem run_command_verdict env cmd w :
  exists b,
    run_command env cmd w = (Ret b, log_to w (attempt cmd))
    /\ (b = true <->
        exists argv out,
          argv_of cmd = Some argv
          /\ subprocess_run env (trace w) argv = Exited 0 out)
    /\ (argv_of cmd = None -> b = false /\ attempt cmd = []).
Proof.
  unfold run_command, subprocess_run_caught, attempt.
  destruct (argv_of cmd) as [argv|] eqn:Hargv.
  - unfold mbind, M_bind, mret, M_ret, emit, get_trace. cbn beta iota.
    destruct (subprocess_run env (trace w) argv) as [[|rc|rc] out|] eqn:Hrun;
      eexists; (split; [reflexivity|]); (split; [|discriminate]).
    + split; [intros _; exists argv, out; split; [reflexivity | exact Hrun] | intros _; reflexivity].
    + split; [discriminate | intros (a & o & [= <-] & H); rewrite Hrun in H; discriminate].
    + split; [discriminate | intros (a & o & [= <-] & H); rewrite Hrun in H; discriminate].
    + split; [discriminate | intros (a & o & [= <-] & H); rewrite Hrun in H; discriminate].
  - exists false. unfold mbind, M_bind, mret, M_ret. cbn beta iota.
    rewrite log_to_nil. split; [reflexivity|]. split; [|intros _; split; reflexivity].
    split; [discriminate | intros (a & o & [=] & _)].
Qed.

(** [run_command_get_output] never raises; it has an output only for a
    process that exits with 0, and that output is the standard output
    without the whitespace around it. *)
Theorem run_command_get_output_trimmed env cmd w :
  exists o,
    run_command_get_output env cmd w = (Ret o, log_to w (attempt cmd))
    /\ forall out,
         o = Some out ->
         starts_with is_space out = false /\ ends_with is_space out = false
         /\ exists argv stdout,
              argv_of cmd = Some argv
              /\ subprocess_run env (trace w) argv = Exited 0 stdout
              /\ out = strip stdout.
Proof.
  unfold run_command_get_output, subprocess_run_caught, attempt.
  destruct (argv_of cmd) as [argv|] eqn:Hargv.
  - unfold mbind, M_bind, mret, M_ret, emit, get_trace. cbn beta iota.
    destruct (subprocess_run env (trace w) argv) as [[|rc|rc] stdout|] eqn:Hrun;
      eexists; (split; [reflexivity|]); intros out [= <-].
    destruct (strip_trimmed stdout) as [Hs He]. repeat split; eauto.
  - eexists. unfold mbind, M_bind, mret, M_ret. cbn beta iota.
    rewrite log_to_nil. split; [reflexivity | discriminate].
Qed.

(** ** Reading a variable, continued *)

Lemma py_dict_single name value : py_dict [(name, value)] !! name = Some value.
Proof. unfold py_dict. cbn. apply lookup_insert_eq. Qed.

(** When the print command exits with 0 and shows, with or without
    whitespace around it, the line [name=value] for the name asked for,
    [assert_env_variable] answers whether the value is the expected
    text; it does not raise. *)
Theorem assert_env_variable_reads env name expect w print_cmd stdout value :
  dict_get (self_state w) PRINT_CMD_KEY = PStr print_cmd ->
  subprocess_run env (trace w) [print_cmd; name] = Exited 0 stdout ->
  strip stdout = name ++ "=" ++ value ->
  all_chars is_name_char name = true ->
  all_chars not_newline value = true ->
  starts_with is_space value = false ->
  (assert_env_variable env name expect w).1 = Ret (bool_decide (value = expect)).
Proof.
  intros Hcmd Hrun Hline Hname Hnl Hstart.
  apply (assert_env_variable_compares env name expect w print_cmd stdout value Hcmd Hrun).
  destruct (strip_trimmed stdout) as [_ He]. rewrite Hline in *.
  unfold Regex.findall_assignment.
  rewrite match_assignment_line;
    [ apply py_dict_single | exact Hname | exact Hnl | exact Hstart | ].
  destruct value as [|d v]; [reflexivity|].
  rewrite <- append_assoc in He. rewrite ends_with_app in He by reflexivity.
  exact He.
Qed.

Lemma assert_env_variable_reads_witness :
  (assert_env_variable update_on_a_device ENV_KEY_BOOTCOUNT "1"
     (mmc_world STEP_TEST_UPDATE CURRENT_ROOT_A)).1
  = Ret (bool_decide ("1" = "1")).
Proof.
  apply (assert_env_variable_reads update_on_a_device ENV_KEY_BOOTCOUNT "1"
           (mmc_world STEP_TEST_UPDATE CURRENT_ROOT_A) PRINT_CMD_UBOOT
           "bootcount=1" "1");
    reflexivity.
Defined.

(** ** Loading the configuration and the state *)

(** [__init__] up to the second configuration file. *)
Lemma init_reads_config env w :
  PersistentState_init env w
  = match config_error (read_json env client_config_path) with
    | Some e =>
        (Raise e,
         {| self_config :=
              dict_update ∅ (contributed (read_json env client_config_path));
            self_state := self_state w; state_file := state_file w;
            trace := trace w |})
    | None =>
        match config_error (read_json env device_config_path) with
        | Some e =>
            (Raise e,
             {| self_config := merged_config env; self_state := self_state w;
                state_file := state_file w; trace := trace w |})
        | None =>
            (st ← _load_state;
             match st with
             | None => raise AttributeError
             | Some st =>
                 put_self_state st;;
                 last_a ← _get_state ROOTFS_A_KEY;
                 last_b ← _get_state ROOTFS_B_KEY;
                 config ← get_self_config;
                 let config_a := dict_get config ROOTFS_A_KEY in
                 let config_b := dict_get config ROOTFS_B_KEY in
                 if py_eqb config_a PNone then
                   info "root filesystem A not found in  config, aborting";;
                   raise RuntimeError
                 else if py_eqb config_b PNone then
                   info "root filesystem B not found in  config, aborting";;
                   raise RuntimeError
                 else if negb (py_eqb last_a PNone)
                         && negb (py_eqb last_a config_a) then
                   info ("root filesystem A in config " ++ py_str config_a
                         ++ " does not match last used one " ++ py_str last_a
                         ++ ", aborting");;
                   raise RuntimeError
                 else if negb (py_eqb last_b PNone)
                         && negb (py_eqb last_b config_b) then
                   info ("root filesystem B in config " ++ py_str config_b
                         ++ " does not match last used one " ++ py_str last_b
                         ++ ", aborting");;
                   raise RuntimeError
                 else mret tt
             end)
              {| self_config := merged_config env; self_state := self_state w;
                 state_file := state_file w; trace := trace w |}
        end
    end.
Proof.
  unfold PersistentState_init.
  unfold mbind at 1, M_bind at 1. unfold put_self_config at 1. cbn beta iota.
  unfold mbind at 1, M_bind at 1. rewrite read_file_int_eq.
  fold client_config_path. cbn [self_config self_state state_file trace].
  destruct (config_error (read_json env client_config_path)); [reflexivity|].
  cbn beta iota.
  unfold mbind at 1, M_bind at 1. rewrite read_file_int_eq.
  fold device_config_path. cbn [self_config self_state state_file trace].
  fold (merged_config env).
  destruct (config_error (read_json env device_config_path)); reflexivity.
Qed.

(** The record a process starts with is the state file's, whatever the
    consistency checks then say. *)
Lemma init_loads_state env w :
  config_loads env -> state_error (state_file w) = None ->
  self_state (PersistentState_init env w).2 = contributed (state_file w).
Proof.
  intros [Hclient Hdevice] Hfile.
  remember (PersistentState_init env w) as R eqn:HR.
  rewrite init_reads_config, Hclient, Hdevice in HR.
  unfold _load_state, _get_state in HR.
  mstep HR.
  cbn [self_config self_state state_file trace] in HR.
  destruct (state_file w); try discriminate; cbn beta iota in HR;
    cbn [self_config self_state state_file trace] in HR;
    repeat match type of HR with
           | context [if ?c then _ else _] => destruct c; cbn beta iota in HR
           end;
    subst R; reflexivity.
Qed.

(** [__init__] reads: it leaves the state file as it is, starts no
    process, and the one result line it may log is the line that says
    why it aborts. *)
Theorem init_only_reads env w :
  state_file (PersistentState_init env w).2 = state_file w
  /\ exists l,
       trace (PersistentState_init env w).2 = (trace w ++ l)%list
       /\ (length l <= 1)%nat
       /\ Forall (fun e => exists msg, e = Info msg) l.
Proof.
  remember (PersistentState_init env w) as R eqn:HR.
  rewrite init_reads_config in HR.
  destruct (config_error (read_json env client_config_path));
    [ | destruct (config_error (read_json env device_config_path)) ].
  3: { unfold _load_state, _get_state in HR.
       mstep HR.
       cbn [self_config self_state state_file trace] in HR.
       destruct (state_file w) eqn:Hfile; cbn beta iota in HR;
         cbn [self_config self_state state_file trace] in HR;
         repeat match type of HR with
                | context [if ?c then _ else _] => destruct c; cbn beta iota in HR
                end;
         subst R; cbn [snd state_file trace]; (split; [reflexivity|]);
         first [ exists []; rewrite app_nil_r; repeat split; [cbn; lia | constructor]
               | eexists [_]; repeat split; [cbn; lia | repeat constructor; eauto] ]. }
  all: subst R; cbn [snd state_file trace]; (split; [reflexivity|]);
    exists []; rewrite app_nil_r; repeat split; [cbn; lia | constructor].
Qed.

(** [__init__] on a readable state file, as one decision. *)
Lemma init_outcome env f :
  config_loads env -> state_error f = None ->
  let cfg := merged_config env in
  let st := contributed f in
  let config_a := dict_get cfg ROOTFS_A_KEY in
  let config_b := dict_get cfg ROOTFS_B_KEY in
  let last_a := dict_get st ROOTFS_A_KEY in
  let last_b := dict_get st ROOTFS_B_KEY in
  PersistentState_init env (boot f) =
    if py_eqb config_a PNone then
      (Raise RuntimeError,
       log_to (loaded env st f)
         [Info "root filesystem A not found in  config, aborting"])
    else if py_eqb config_b PNone then
      (Raise RuntimeError,
       log_to (loaded env st f)
         [Info "root filesystem B not found in  config, aborting"])
    else if negb (py_eqb last_a PNone) && negb (py_eqb last_a config_a) then
      (Raise RuntimeError,
       log_to (loaded env st f)
         [Info ("root filesystem A in config " ++ py_str config_a
                ++ " does not match last used one " ++ py_str last_a
                ++ ", aborting")])
    else if negb (py_eqb last_b PNone) && negb (py_eqb last_b config_b) then
      (Raise RuntimeError,
       log_to (loaded env st f)
         [Info ("root filesystem B in config " ++ py_str config_b
                ++ " does not match last used one " ++ py_str last_b
                ++ ", aborting")])
    else (Ret tt, loaded env st f).
Proof.
  intros [Hclient Hdevice] Hfile. cbn zeta.
  rewrite init_reads_config, Hclient, Hdevice.
  unfold _load_state, _get_state, info.
  unfold mbind, M_bind, mret, M_ret, raise, emit, get_self_state, get_self_config,
    put_self_state, get_state_file.
  cbn beta iota. cbn [self_config self_state state_file trace boot].
  destruct f as [| | | |d|taken rejected]; try discriminate; cbn beta iota;
    cbn [self_config self_state state_file trace contributed];
    repeat match goal with
           | |- context [if ?c then _ else _] => destruct c; cbn beta iota
           end;
    reflexivity.
Qed.

Lemma script_exits env f reason st :
  PersistentState_init env (boot f)
  = (Raise RuntimeError, log_to (loaded env st f) [Info reason]) ->
  script env (boot f)
  = (Raise (SystemExit 1), log_to (loaded env st f) [Info reason; Info exit_line]).
Proof.
  intros Hinit. unfold script, load_state.
  unfold mbind at 1, M_bind at 1. rewrite Hinit. reflexivity.
Qed.


Lemma dict_get_str (d : gmap string pyval) key text :
  dict_get d key = PStr text <-> d !! key = Some (PStr text).
Proof.
  unfold dict_get. destruct (d !! key) as [v|]; split; intros H;
    try discriminate; congruence.
Qed.

(** Fail closed on a changed partition assignment: when both
    configuration files can be read (or are skipped as absent or not
    JSON) and the state file records for [RootfsPartA] or [RootfsPartB] a
    device that the configuration does not give now, the script exits
    with status 1.  It has logged why, started no process and left the
    state file as it was. *)
Theorem changed_partition_exits env d key old :
  config_loads env ->
  key = ROOTFS_A_KEY \/ key = ROOTFS_B_KEY ->
  d !! key = Some (PStr old) ->
  merged_config env !! key <> Some (PStr old) ->
  exists reason,
    script env (boot (JsonObject d))
    = (Raise (SystemExit 1),
       log_to (loaded env d (JsonObject d)) [Info reason; Info exit_line]).
Proof.
  intros Hloads Hkey Hold Hnew.
  apply dict_get_str in Hold. rewrite <- dict_get_str in Hnew.
  pose proof (init_outcome env (JsonObject d) Hloads eq_refl) as Hinit.
  cbn zeta in Hinit. cbn [contributed] in Hinit.
  destruct (py_eqb (dict_get (merged_config env) ROOTFS_A_KEY) PNone);
    [ eexists; apply script_exits; exact Hinit | ].
  destruct (py_eqb (dict_get (merged_config env) ROOTFS_B_KEY) PNone);
    [ eexists; apply script_exits; exact Hinit | ].
  destruct (negb (py_eqb (dict_get d ROOTFS_A_KEY) PNone)
            && negb (py_eqb (dict_get d ROOTFS_A_KEY)
                       (dict_get (merged_config env) ROOTFS_A_KEY))) eqn:Ha;
    [ eexists; apply script_exits; exact Hinit | ].
  destruct (negb (py_eqb (dict_get d ROOTFS_B_KEY) PNone)
            && negb (py_eqb (dict_get d ROOTFS_B_KEY)
                       (dict_get (merged_config env) ROOTFS_B_KEY))) eqn:Hb;
    [ eexists; apply script_exits; exact Hinit | ].
  exfalso. destruct Hkey as [-> | ->].
  - rewrite Hold in Ha. apply andb_false_iff in Ha as [Ha | Ha];
      apply negb_false_iff, py_eqb_eq in Ha; [discriminate | congruence].
  - rewrite Hold in Hb. apply andb_false_iff in Hb as [Hb | Hb];
      apply negb_false_iff, py_eqb_eq in Hb; [discriminate | congruence].
Qed.

Lemma changed_partition_exits_witness :
  exists reason,
    script update_on_a_device
      (boot (JsonObject (<[ROOTFS_A_KEY := PStr "/dev/mmcblk0p5"]>
                           (mmc_state STEP_TEST_SWITCH CURRENT_ROOT_B))))
    = (Raise (SystemExit 1),
       log_to (loaded update_on_a_device
                 (<[ROOTFS_A_KEY := PStr "/dev/mmcblk0p5"]>
                    (mmc_state STEP_TEST_SWITCH CURRENT_ROOT_B))
                 (JsonObject (<[ROOTFS_A_KEY := PStr "/dev/mmcblk0p5"]>
                                (mmc_state STEP_TEST_SWITCH CURRENT_ROOT_B))))
         [Info reason; Info exit_line]).
Proof.
  apply (changed_partition_exits update_on_a_device _ ROOTFS_A_KEY "/dev/mmcblk0p5");
    [ split; reflexivity | left; reflexivity | vm_compute; reflexivity
    | vm_compute; discriminate ].
Defined.

(** Fail closed on an incomplete configuration: when both configuration
    files can be read (or are skipped as absent or not JSON) and together
    do not give [RootfsPartA] or do not give [RootfsPartB], and the state
    file is absent or holds a JSON object, the script exits with status 1
    after logging why; no process is started and the state file stays as
    it was. *)
Theorem missing_partition_exits env f :
  config_loads env -> state_error f = None ->
  dict_get (merged_config env) ROOTFS_A_KEY = PNone
  \/ dict_get (merged_config env) ROOTFS_B_KEY = PNone ->
  exists reason,
    script env (boot f)
    = (Raise (SystemExit 1),
       log_to (loaded env (contributed f) f) [Info reason; Info exit_line]).
Proof.
  intros Hloads Hfile Hmissing.
  pose proof (init_outcome env f Hloads Hfile) as Hinit. cbn zeta in Hinit.
  destruct (py_eqb (dict_get (merged_config env) ROOTFS_A_KEY) PNone) eqn:Ha;
    [ eexists; apply script_exits; exact Hinit | ].
  destruct (py_eqb (dict_get (merged_config env) ROOTFS_B_KEY) PNone) eqn:Hb;
    [ eexists; apply script_exits; exact Hinit | ].
  exfalso. apply py_eqb_neq in Ha, Hb. tauto.
Qed.

Lemma missing_partition_exits_witness :
  exists reason,
    script (scripted_device NoFile Malformed [] SpawnError) (boot NoFile)
    = (Raise (SystemExit 1),
       log_to (loaded (scripted_device NoFile Malformed [] SpawnError) ∅ NoFile)
         [Info reason; Info exit_line]).
Proof.
  apply (missing_partition_exits (scripted_device NoFile Malformed [] SpawnError) NoFile);
    [ split; reflexivity | reflexivity | left; reflexivity ].
Defined.





(** ** What the state file carries across a reboot *)

(** Save and load: the record [_set_state] has stored is the record
    [__init__] loads in the process after the reboot, whatever the
    configuration files that can be read then say, and [_get_state]
    there reads the value that was set. *)
Theorem record_survives_reboot env key value w w' env' :
  _set_state env key value w = (Ret tt, w') ->
  config_loads env' ->
  self_state (PersistentState_init env' (boot (state_file w'))).2 = self_state w'
  /\ _get_state key (PersistentState_init env' (boot (state_file w'))).2
     = (Ret value, (PersistentState_init env' (boot (state_file w'))).2).
Proof.
  intros Hset Hloads. apply _set_state_returns in Hset as [_ ->].
  assert (Hload : self_state (PersistentState_init env'
                                (boot (state_file (persisted w key value)))).2
                  = self_state (persisted w key value)).
  { rewrite init_loads_state; [reflexivity | exact Hloads | reflexivity]. }
  split; [exact Hload|].
  unfold _get_state, mbind, M_bind, mret, M_ret, get_self_state.
  rewrite Hload. unfold dict_get, persisted. cbn [self_state].
  rewrite lookup_insert_eq. reflexivity.
Qed.

Lemma record_survives_reboot_witness :
  let w := mmc_world STEP_TEST_SWITCH CURRENT_ROOT_A in
  let w' := persisted w EXPECTED_ROOT_KEY (PStr CURRENT_ROOT_B) in
  self_state (PersistentState_init update_on_a_device (boot (state_file w'))).2
  = self_state w'.
Proof.
  cbn zeta.
  apply (record_survives_reboot update_on_a_device EXPECTED_ROOT_KEY
           (PStr CURRENT_ROOT_B) (mmc_world STEP_TEST_SWITCH CURRENT_ROOT_A)
           (persisted (mmc_world STEP_TEST_SWITCH CURRENT_ROOT_A)
              EXPECTED_ROOT_KEY (PStr CURRENT_ROOT_B))
           update_on_a_device);
    [ reflexivity | split; reflexivity ].
Defined.

(** After [clean] the sequence is over for good: the state file is gone,
    and the next process starts from an empty record, whose step reads
    [None]. *)
Theorem clean_forgets env w w' env' :
  clean env w = (Ret tt, w') ->
  state_file w' = NoFile
  /\ self_state (PersistentState_init env' (boot (state_file w'))).2 = ∅
  /\ (get_step (PersistentState_init env' (boot (state_file w'))).2).1 = Ret PNone.
Proof.
  unfold clean, mbind, M_bind, mret, M_ret, raise, emit, get_trace, put_state_file.
  cbn beta iota. destruct (os_remove_ok env (trace w)); [|discriminate].
  intros [= <-]. cbn [state_file].
  assert (Hload : self_state (PersistentState_init env' (boot NoFile)).2 = ∅).
  { rewrite init_reads_config.
    destruct (config_error (read_json env' client_config_path)); [reflexivity|].
    destruct (config_error (read_json env' device_config_path)); [reflexivity|].
    unfold _load_state, _get_state, info.
    unfold mbind, M_bind, mret, M_ret, raise, emit, get_self_state,
      get_self_config, put_self_state, get_state_file.
    cbn beta iota. cbn [boot self_config self_state state_file trace].
    repeat match goal with
           | |- context [if ?c then _ else _] => destruct c; cbn beta iota
           end;
      reflexivity. }
  repeat split; [exact Hload|].
  rewrite get_step_eq, Hload. reflexivity.
Qed.

Lemma clean_forgets_witness :
  state_file (clean update_on_a_device (mmc_world STEP_END CURRENT_ROOT_A)).2 = NoFile.
Proof.
  apply (clean_forgets update_on_a_device (mmc_world STEP_END CURRENT_ROOT_A)
           (clean update_on_a_device (mmc_world STEP_END CURRENT_ROOT_A)).2
           update_on_a_device).
  reflexivity.
Defined.

(** A world reached from [w] by events alone is [log_to w] of them. *)
Ltac as_log :=
  unfold log_to; cbn [self_config self_state state_file trace];
  rewrite <- ?app_assoc; reflexivity.

(** ** Selecting the boot partition *)

Lemma set_mender_bootpart_cases env num w :
  let cmd := dict_get (self_state w) SET_CMD_KEY in
  exists b l,
    set_mender_bootpart env num w = (Ret b, log_to w l)
    /\ (b = true ->
        exists set_cmd,
          cmd = PStr set_cmd
          /\ l = [Spawn [set_cmd; ENV_KEY_BOOT_PART; py_str num];
                  Spawn [set_cmd; ENV_KEY_BOOT_PART_HEX; py_str num]])
    /\ (b = false ->
        l = (attempt [cmd; PStr ENV_KEY_BOOT_PART; PStr (py_str num)]
             ++ [Info "failed to set mender_boot_part"])%list
        \/ exists set_cmd,
             cmd = PStr set_cmd
             /\ l = [Spawn [set_cmd; ENV_KEY_BOOT_PART; py_str num];
                     Spawn [set_cmd; ENV_KEY_BOOT_PART_HEX; py_str num];
                     Info "failed to set mender_boot_part_hex"]).
Proof.
  cbn zeta. remember (set_mender_bootpart env num w) as R eqn:HR.
  unfold set_mender_bootpart in HR. mstep HR.
  destruct (set_env_variable env ENV_KEY_BOOT_PART (py_str num) w)
    as [r1 w1] eqn:E1.
  destruct (set_env_variable_world _ _ _ _ _ _ E1) as [[b1 ->] Hw1].
  simp HR. destruct b1; simp HR.
  - apply set_env_variable_ok in E1 as (set_cmd & Hcmd & ->).
    destruct (set_env_variable env ENV_KEY_BOOT_PART_HEX (py_str num)
                (log_to w [Spawn [set_cmd; ENV_KEY_BOOT_PART; py_str num]]))
      as [r2 w2] eqn:E2.
    destruct (set_env_variable_world _ _ _ _ _ _ E2) as [[b2 ->] Hw2].
    cbn [log_to self_state] in Hw2. rewrite Hcmd in Hw2.
    cbn [attempt argv_of] in Hw2. rewrite log_to_app in Hw2. cbn [app] in Hw2.
    simp HR. destruct b2; simp HR; subst R w2.
    + exists true. eexists. split; [reflexivity|]. split; [|discriminate].
      intros _. exists set_cmd. split; [exact Hcmd | reflexivity].
    + exists false. eexists. split.
      * as_log.
      * split; [discriminate|]. intros _. right. exists set_cmd.
        split; [exact Hcmd | reflexivity].
  - subst R w1. exists false. eexists. split.
    + as_log.
    + split; [discriminate|]. intros _. left. reflexivity.
Qed.

(** [set_mender_bootpart] never raises and leaves the record and the
    state file alone.  It answers [True] only when it has written both
    [mender_boot_part] and [mender_boot_part_hex], in this order and with
    the same text [str(num)]; when the first write fails the second is
    not attempted; and each failure is logged. *)
Theorem set_mender_bootpart_verdict env num w :
  let cmd := dict_get (self_state w) SET_CMD_KEY in
  exists b l,
    set_mender_bootpart env num w = (Ret b, log_to w l)
    /\ (b = true ->
        exists set_cmd,
          cmd = PStr set_cmd
          /\ l = [Spawn [set_cmd; ENV_KEY_BOOT_PART; py_str num];
                  Spawn [set_cmd; ENV_KEY_BOOT_PART_HEX; py_str num]])
    /\ (b = false ->
        l = (attempt [cmd; PStr ENV_KEY_BOOT_PART; PStr (py_str num)]
             ++ [Info "failed to set mender_boot_part"])%list
        \/ exists set_cmd,
             cmd = PStr set_cmd
             /\ l = [Spawn [set_cmd; ENV_KEY_BOOT_PART; py_str num];
                     Spawn [set_cmd; ENV_KEY_BOOT_PART_HEX; py_str num];
                     Info "failed to set mender_boot_part_hex"]).
Proof. exact (set_mender_bootpart_cases env num w). Qed.

Lemma set_mender_bootpart_world env num w r w' :
  set_mender_bootpart env num w = (r, w') ->
  exists b l, r = Ret b /\ w' = log_to w l.
Proof.
  destruct (set_mender_bootpart_cases env num w) as (b & l & -> & _).
  intros [= <- <-]. eauto.
Qed.

Lemma set_mender_bootpart_ok env num w w' :
  set_mender_bootpart env num w = (Ret true, w') ->
  exists set_cmd,
    dict_get (self_state w) SET_CMD_KEY = PStr set_cmd
    /\ w' = log_to w [Spawn [set_cmd; ENV_KEY_BOOT_PART; py_str num];
                      Spawn [set_cmd; ENV_KEY_BOOT_PART_HEX; py_str num]].
Proof.
  destruct (set_mender_bootpart_cases env num w) as (b & l & -> & Hok & _).
  intros [= -> <-]. destruct (Hok eq_refl) as (set_cmd & Hcmd & ->). eauto.
Qed.

Lemma run_command_ok env cmd w w' :
  run_command env cmd w = (Ret true, w') ->
  exists argv, argv_of cmd = Some argv /\ w' = log_to w [Spawn argv].
Proof.
  intros HR. pose proof HR as [_ Hw]%run_command_world.
  unfold attempt in Hw. destruct (argv_of cmd) as [argv|] eqn:Hargv; [eauto|].
  exfalso. revert HR. unfold run_command, subprocess_run_caught. rewrite Hargv.
  unfold mbind, M_bind, mret, M_ret. cbn beta iota. discriminate.
Qed.

Lemma get_inactive_bootpart_info_eq current w :
  get_inactive_bootpart_info current w
  = (Ret (match other_root current with
          | Some other =>
              Some {| inactive_number := dict_get (self_state w) (root_number_key other);
                      inactive_device := dict_get (self_state w) (root_device_key other);
                      inactive_ident := other |}
          | None => None
          end), w).
Proof.
  unfold get_inactive_bootpart_info, other_root.
  destruct (bool_decide (current = CURRENT_ROOT_A)); [reflexivity|].
  destruct (bool_decide (current = CURRENT_ROOT_B)); reflexivity.
Qed.

Lemma set_expected_root_returns env value w w' :
  set_expected_root env value w = (Ret tt, w') ->
  w' = persisted w EXPECTED_ROOT_KEY value.
Proof.
  unfold set_expected_root. intros H. apply _set_state_returns in H as [_ ->].
  reflexivity.
Qed.

Lemma prepare_switch_eq env v w :
  s v = PStr STEP_TEST_SWITCH -> prepare env v w = prepare_test_switch env v w.
Proof. intros H. unfold prepare. rewrite H. reflexivity. Qed.

(** ** What a successful preparation leaves behind *)

(** A preparation of the switch test or of the update test that leaves
    the run going has commanded the bootloader to the partition that is
    not mounted, by that partition's recorded number, and then recorded
    that partition as [ExpectedRoot]; the state file holds the record
    when the preparation returns. *)
Theorem preparation_expects_other_root env v w v' w' :
  s v = PStr STEP_TEST_SWITCH \/ s v = PStr STEP_TEST_UPDATE ->
  prepare env v w = (Ret v', w') -> keep_going v' = true ->
  exists other set_cmd before,
    other_root (current_root v) = Some other
    /\ self_state w' = <[EXPECTED_ROOT_KEY := PStr other]> (self_state w)
    /\ state_file w' = JsonObject (self_state w')
    /\ let number := py_str (dict_get (self_state w) (root_number_key other)) in
       trace w'
       = (trace w ++ before
          ++ [Spawn [set_cmd; ENV_KEY_BOOT_PART; number];
              Spawn [set_cmd; ENV_KEY_BOOT_PART_HEX; number];
              WriteState (self_state w')])%list.
Proof.
  intros [Hs | Hs] HR Hgo; symmetry in HR.
  - rewrite (prepare_switch_eq _ _ _ Hs) in HR.
    unfold prepare_test_switch in HR. mstep HR.
    rewrite get_inactive_bootpart_info_eq in HR. simp HR.
    destruct (other_root (current_root v)) as [other|]; simp HR;
      [ | inversion HR; subst; discriminate Hgo ].
    destruct (set_mender_bootpart env _ w) as [r1 w1] eqn:E1.
    destruct (set_mender_bootpart_world _ _ _ _ _ E1) as (b & l & -> & Hw1).
    simp HR. destruct b; simp HR; [ | inversion HR; subst; discriminate Hgo ].
    apply set_mender_bootpart_ok in E1 as (set_cmd & Hcmd & ->). clear Hw1.
    cbn [inactive_number inactive_device inactive_ident] in HR.
    match type of HR with
    | context [set_expected_root env ?a ?b] =>
        destruct (set_expected_root env a b) as [[[]|e] w2] eqn:E2
    end; simp HR; [ | discriminate HR ].
    apply set_expected_root_returns in E2 as ->. inversion HR; subst; clear HR.
    exists other, set_cmd, [].
    split; [reflexivity|]. split; [reflexivity|]. split; [reflexivity|].
    cbn zeta. unfold persisted, log_to. cbn [self_state trace].
    rewrite <- !app_assoc. reflexivity.
  - rewrite (prepare_update_eq _ _ _ Hs) in HR.
    unfold prepare_test_update in HR. mstep HR.
    destruct (keep_going v) eqn:Hk; simp HR.
    2: { lookup_inactive HR. simp HR. inversion HR; subst; discriminate Hgo. }
    destruct (set_env_variable env ENV_KEY_BOOTCOUNT "0" w) as [r1 w1] eqn:E1.
    destruct (set_env_variable_world _ _ _ _ _ _ E1) as [[b1 ->] Hw1].
    simp HR. destruct b1; simp HR.
    2: { lookup_inactive HR. simp HR. inversion HR; subst; discriminate Hgo. }
    destruct (set_env_variable env ENV_KEY_UPGRADE "1" w1) as [r2 w2] eqn:E2.
    destruct (set_env_variable_world _ _ _ _ _ _ E2) as [[b2 ->] Hw2].
    simp HR. destruct b2; simp HR.
    2: { lookup_inactive HR. simp HR. inversion HR; subst; discriminate Hgo. }
    rewrite get_inactive_bootpart_info_eq in HR. simp HR.
    destruct (other_root (current_root v)) as [other|]; simp HR;
      [ | inversion HR; subst; discriminate Hgo ].
    destruct (set_mender_bootpart env _ w2) as [r3 w3] eqn:E3.
    destruct (set_mender_bootpart_world _ _ _ _ _ E3) as (b & l & -> & Hw3).
    simp HR. destruct b; simp HR; [ | inversion HR; subst; discriminate Hgo ].
    apply set_mender_bootpart_ok in E3 as (set_cmd & Hcmd & ->). clear Hw3.
    cbn [inactive_number inactive_device inactive_ident] in HR.
    match type of HR with
    | context [set_expected_root env ?a ?b] =>
        destruct (set_expected_root env a b) as [[[]|e] w4] eqn:E4
    end; simp HR; [ | discriminate HR ].
    apply set_expected_root_returns in E4 as ->. inversion HR; subst; clear HR.
    cbn [log_to self_state].
    exists other, set_cmd,
      (attempt [dict_get (self_state w) SET_CMD_KEY; PStr ENV_KEY_BOOTCOUNT; PStr "0"]
       ++ attempt [dict_get (self_state w) SET_CMD_KEY; PStr ENV_KEY_UPGRADE; PStr "1"])%list.
    split; [reflexivity|]. split; [reflexivity|]. split; [reflexivity|].
    cbn zeta. unfold persisted, log_to. cbn [self_state trace].
    rewrite <- !app_assoc. reflexivity.
Qed.

Lemma preparation_expects_other_root_witness :
  let v := entering CURRENT_ROOT_A (PStr STEP_TEST_SWITCH) in
  let w := mmc_world STEP_TEST_SWITCH CURRENT_ROOT_A in
  let w' := (prepare update_on_a_device v w).2 in
  exists other set_cmd before,
    other_root (current_root v) = Some other
    /\ self_state w' = <[EXPECTED_ROOT_KEY := PStr other]> (self_state w)
    /\ state_file w' = JsonObject (self_state w')
    /\ let number := py_str (dict_get (self_state w) (root_number_key other)) in
       trace w'
       = (trace w ++ before
          ++ [Spawn [set_cmd; ENV_KEY_BOOT_PART; number];
              Spawn [set_cmd; ENV_KEY_BOOT_PART_HEX; number];
              WriteState (self_state w')])%list.
Proof.
  cbn zeta.
  apply (preparation_expects_other_root update_on_a_device
           (entering CURRENT_ROOT_A (PStr STEP_TEST_SWITCH))
           (mmc_world STEP_TEST_SWITCH CURRENT_ROOT_A)
           (entering CURRENT_ROOT_A (PStr STEP_TEST_SWITCH)));
    [ left; reflexivity | vm_compute; reflexivity | reflexivity ].
Defined.

(** ** The rollback test *)

(** A branch of the block that has stopped: whatever the exit of the
    block then does, the preparation has not returned with [keep_going]. *)
Ltac left_block HR Hgo :=
  rewrite ?cleanup_eq in HR;
  repeat match type of HR with
         | context [if still_mounted ?e ?t ?d then _ else _] =>
             destruct (still_mounted e t d)
         end;
  cbn beta iota in HR;
  first [ discriminate HR | inversion HR; subst; discriminate Hgo ].

(** The fault injection in the order the run performs it.  A rollback
    preparation on an identified root that leaves the run going has
    mounted the inactive partition's device on the temporary directory,
    renamed its [boot] directory to [boot-defunct], unmounted it, written
    [bootcount] 0 and [upgrade_available] 1, selected the inactive
    partition, recorded the root that is mounted now as [ExpectedRoot],
    and removed the temporary directory, and nothing else. *)
Theorem rollback_preparation_order env v w v' w' other :
  s v = PStr STEP_TEST_ROLLBACK ->
  other_root (current_root v) = Some other ->
  prepare env v w = (Ret v', w') -> keep_going v' = true ->
  exists set_cmd device tmpdirname,
    dict_get (self_state w) (root_device_key other) = PStr device
    /\ self_state w' = <[EXPECTED_ROOT_KEY := PStr (current_root v)]> (self_state w)
    /\ state_file w' = JsonObject (self_state w')
    /\ let number := py_str (dict_get (self_state w) (root_number_key other)) in
       trace w'
       = (trace w
          ++ [MkTemp tmpdirname;
              Spawn ["mount"; device; tmpdirname];
              Rename (os_path_join tmpdirname BOOT_DIRECTORY)
                (os_path_join tmpdirname BOOT_DIRECTORY_DEFUNCT);
              Spawn ["umount"; tmpdirname];
              Spawn [set_cmd; ENV_KEY_BOOTCOUNT; "0"];
              Spawn [set_cmd; ENV_KEY_UPGRADE; "1"];
              Spawn [set_cmd; ENV_KEY_BOOT_PART; number];
              Spawn [set_cmd; ENV_KEY_BOOT_PART_HEX; number];
              WriteState (self_state w');
              RmTemp tmpdirname])%list.
Proof.
  intros Hs Hother HR Hgo. symmetry in HR.
  rewrite (prepare_rollback_eq _ _ _ Hs) in HR.
  unfold prepare_test_rollback, inject_fault, finally in HR. mstep HR.
  rewrite get_inactive_bootpart_info_eq, Hother in HR. simp HR.
  cbn [inactive_number inactive_device inactive_ident] in HR.
  destruct (keep_going v) eqn:Hk; simp HR;
    [ | inversion HR; subst; congruence ].
  destruct (mkdtemp env (trace w)) as [tmpdirname|]; simp HR; [ | discriminate HR ].
  match type of HR with
  | context [run_command env ?c ?x] =>
      destruct (run_command env c x) as [r1 w1] eqn:E1
  end.
  destruct (run_command_world _ _ _ _ _ E1) as [[b1 ->] _].
  simp HR. destruct b1; simp HR; [ | left_block HR Hgo ].
  apply run_command_ok in E1 as (argv & Hargv & ->).
  cbn [argv_of] in Hargv.
  destruct (dict_get (self_state w) (root_device_key other)) as [|device] eqn:Hdev;
    [discriminate Hargv|]. injection Hargv as <-.
  cbn [log_to self_config self_state state_file trace] in HR.
  match type of HR with
  | context [if os_rename_ok env ?t ?a ?b then _ else _] =>
      destruct (os_rename_ok env t a b)
  end; simp HR; [ | left_block HR Hgo ].
  match type of HR with
  | context [run_command env ?c ?x] =>
      destruct (run_command env c x) as [r2 w2] eqn:E2
  end.
  destruct (run_command_world _ _ _ _ _ E2) as [[b2 ->] _].
  simp HR. destruct b2; simp HR; [ | left_block HR Hgo ].
  apply run_command_ok in E2 as (argv & Hargv & ->).
  cbn [argv_of] in Hargv. injection Hargv as <-.
  match type of HR with
  | context [set_env_variable env ?n ?x ?y] =>
      destruct (set_env_variable env n x y) as [r3 w3] eqn:E3
  end.
  destruct (set_env_variable_world _ _ _ _ _ _ E3) as [[b3 ->] _].
  simp HR. destruct b3; simp HR; [ | left_block HR Hgo ].
  apply set_env_variable_ok in E3 as (set_cmd & Hcmd & ->).
  cbn [log_to self_state] in Hcmd.
  match type of HR with
  | context [set_env_variable env ?n ?x ?y] =>
      destruct (set_env_variable env n x y) as [r4 w4] eqn:E4
  end.
  destruct (set_env_variable_world _ _ _ _ _ _ E4) as [[b4 ->] _].
  simp HR. destruct b4; simp HR; [ | left_block HR Hgo ].
  apply set_env_variable_ok in E4 as (set_cmd4 & Hcmd4 & ->).
  cbn [log_to self_state] in Hcmd4. rewrite Hcmd in Hcmd4. injection Hcmd4 as <-.
  match type of HR with
  | context [set_mender_bootpart env ?n ?y] =>
      destruct (set_mender_bootpart env n y) as [r5 w5] eqn:E5
  end.
  destruct (set_mender_bootpart_world _ _ _ _ _ E5) as (b5 & l5 & -> & _).
  simp HR. destruct b5; simp HR; [ | left_block HR Hgo ].
  apply set_mender_bootpart_ok in E5 as (set_cmd5 & Hcmd5 & ->).
  cbn [log_to self_state] in Hcmd5. rewrite Hcmd in Hcmd5. injection Hcmd5 as <-.
  match type of HR with
  | context [set_expected_root env ?a ?b] =>
      destruct (set_expected_root env a b) as [[[]|e] w6] eqn:E6
  end; simp HR; [ | left_block HR Hgo ].
  rewrite cleanup_eq in HR.
  match type of HR with
  | context [if still_mounted ?e ?t ?d then _ else _] =>
      destruct (still_mounted e t d)
  end; [ discriminate HR | ].
  apply set_expected_root_returns in E6 as ->. inversion HR; subst; clear HR.
  exists set_cmd, device, tmpdirname.
  split; [reflexivity|]. split; [reflexivity|]. split; [reflexivity|].
  cbn zeta. unfold persisted, log_to. cbn [self_state trace].
  rewrite <- !app_assoc. reflexivity.
Qed.

Lemma rollback_preparation_order_witness :
  let v := entering CURRENT_ROOT_A (PStr STEP_TEST_ROLLBACK) in
  let w := mmc_world STEP_TEST_ROLLBACK CURRENT_ROOT_A in
  let w' := (prepare update_on_a_device v w).2 in
  exists set_cmd device tmpdirname,
    dict_get (self_state w) (root_device_key CURRENT_ROOT_B) = PStr device
    /\ self_state w' = <[EXPECTED_ROOT_KEY := PStr (current_root v)]> (self_state w)
    /\ state_file w' = JsonObject (self_state w')
    /\ let number :=
         py_str (dict_get (self_state w) (root_number_key CURRENT_ROOT_B)) in
       trace w'
       = (trace w
          ++ [MkTemp tmpdirname;
              Spawn ["mount"; device; tmpdirname];
              Rename (os_path_join tmpdirname BOOT_DIRECTORY)
                (os_path_join tmpdirname BOOT_DIRECTORY_DEFUNCT);
              Spawn ["umount"; tmpdirname];
              Spawn [set_cmd; ENV_KEY_BOOTCOUNT; "0"];
              Spawn [set_cmd; ENV_KEY_UPGRADE; "1"];
              Spawn [set_cmd; ENV_KEY_BOOT_PART; number];
              Spawn [set_cmd; ENV_KEY_BOOT_PART_HEX; number];
              WriteState (self_state w');
              RmTemp tmpdirname])%list.
Proof.
  cbn zeta.
  apply (rollback_preparation_order update_on_a_device
           (entering CURRENT_ROOT_A (PStr STEP_TEST_ROLLBACK))
           (mmc_world STEP_TEST_ROLLBACK CURRENT_ROOT_A)
           (entering CURRENT_ROOT_A (PStr STEP_TEST_ROLLBACK)));
    [ reflexivity | reflexivity | vm_compute; reflexivity | reflexivity ].
Defined.

Lemma set_expected_root_cases env value w :
  set_expected_root env value w = (Ret tt, persisted w EXPECTED_ROOT_KEY value)
  \/ exists w', set_expected_root env value w = (Raise OSError, w')
                /\ trace w' = trace w.
Proof.
  unfold set_expected_root. rewrite _set_state_eq.
  destruct (open_write_ok env (trace w)); [left; reflexivity | right].
  eexists. split; reflexivity.
Qed.

Lemma inject_fault_trace env inactive tmpdirname v w :
  exists l, trace (inject_fault env inactive tmpdirname v w).2 = (trace w ++ l)%list.
Proof.
  remember (inject_fault env inactive tmpdirname v w) as R eqn:HR.
  unfold inject_fault in HR. mstep HR. simp HR.
  repeat first
    [ match type of HR with
      | context [run_command env ?c ?x] =>
          let r := fresh "r" in let w1 := fresh "w" in let E := fresh "E" in
          destruct (run_command env c x) as [r w1] eqn:E;
          destruct (run_command_world _ _ _ _ _ E) as [[[] ->] ->]; clear E
      | context [set_env_variable env ?n ?a ?x] =>
          let r := fresh "r" in let w1 := fresh "w" in let E := fresh "E" in
          destruct (set_env_variable env n a x) as [r w1] eqn:E;
          destruct (set_env_variable_world _ _ _ _ _ _ E) as [[[] ->] ->]; clear E
      | context [set_mender_bootpart env ?n ?x] =>
          let r := fresh "r" in let w1 := fresh "w" in let E := fresh "E" in
          destruct (set_mender_bootpart env n x) as [r w1] eqn:E;
          destruct (set_mender_bootpart_world _ _ _ _ _ E) as ([] & ? & -> & ->);
          clear E
      | context [set_expected_root env ?a ?x] =>
          let w1 := fresh "w" in let E := fresh "E" in let Ht := fresh "Ht" in
          destruct (set_expected_root_cases env a x) as [E | (w1 & E & Ht)];
          rewrite E in HR
      | context [if ?c then _ else _] =>
          let E := fresh "E" in destruct c eqn:E
      end; simp HR ].
  all: subst R; cbn [snd];
    try match goal with H : trace ?x = _ |- context [trace ?x] => rewrite H end;
    unfold persisted, log_to; cbn [self_config self_state state_file trace];
    rewrite <- ?app_assoc; eexists; reflexivity.
Qed.

(** Leaving the block is the last thing the rollback preparation does,
    on every path, the ones that fail and the one that ends in an
    exception of the state store included.  The temporary directory is
    removed then if no file system sits on it; if the inactive partition
    is still mounted there, the removal fails and the preparation ends
    in [OSError], with the directory left behind. *)
Theorem rollback_tempdir_cleanup env v w other tmpdirname :
  keep_going v = true ->
  other_root (current_root v) = Some other ->
  mkdtemp env (trace w) = Some tmpdirname ->
  exists l,
    let before := (trace w ++ [MkTemp tmpdirname] ++ l)%list in
    (still_mounted env before tmpdirname = false
     /\ trace (prepare_test_rollback env v w).2
        = (before ++ [RmTemp tmpdirname])%list)
    \/ (still_mounted env before tmpdirname = true
        /\ (prepare_test_rollback env v w).1 = Raise OSError
        /\ trace (prepare_test_rollback env v w).2
           = (before ++ [RmTempFailed tmpdirname])%list).
Proof.
  intros Hk Hother Hmk.
  remember (prepare_test_rollback env v w) as R eqn:HR.
  unfold prepare_test_rollback in HR.
  unfold mbind at 1, M_bind at 1 in HR.
  rewrite get_inactive_bootpart_info_eq, Hother, Hk in HR. cbn beta iota in HR.
  unfold mbind at 1, M_bind at 1, get_trace at 1 in HR. cbn beta iota in HR.
  rewrite Hmk in HR.
  unfold mbind at 1, M_bind at 1, emit at 1, finally in HR. cbn beta iota in HR.
  match type of HR with
  | context [inject_fault env ?i ?t ?v0 ?x] =>
      destruct (inject_fault_trace env i t v0 x) as [l Hl];
      destruct (inject_fault env i t v0 x) as [r wb]
  end.
  cbn [snd trace] in Hl. rewrite cleanup_eq, Hl in HR.
  exists l. cbn zeta. rewrite !app_assoc.
  destruct (still_mounted env ((trace w ++ [MkTemp tmpdirname]) ++ l) tmpdirname);
    [right | left]; subst R; cbn [fst snd log_to trace]; rewrite Hl;
    repeat split; reflexivity.
Qed.

Lemma rollback_tempdir_cleanup_witness :
  exists l,
    let before :=
      (trace (mmc_world STEP_TEST_ROLLBACK CURRENT_ROOT_A)
       ++ [MkTemp "/tmp/tmpq1w2e3"] ++ l)%list in
    (still_mounted (readonly_env_device []) before "/tmp/tmpq1w2e3" = false
     /\ trace (prepare_test_rollback (readonly_env_device [])
                 (entering CURRENT_ROOT_A (PStr STEP_TEST_ROLLBACK))
                 (mmc_world STEP_TEST_ROLLBACK CURRENT_ROOT_A)).2
        = (before ++ [RmTemp "/tmp/tmpq1w2e3"])%list)
    \/ (still_mounted (readonly_env_device []) before "/tmp/tmpq1w2e3" = true
        /\ (prepare_test_rollback (readonly_env_device [])
              (entering CURRENT_ROOT_A (PStr STEP_TEST_ROLLBACK))
              (mmc_world STEP_TEST_ROLLBACK CURRENT_ROOT_A)).1 = Raise OSError
        /\ trace (prepare_test_rollback (readonly_env_device [])
                    (entering CURRENT_ROOT_A (PStr STEP_TEST_ROLLBACK))
                    (mmc_world STEP_TEST_ROLLBACK CURRENT_ROOT_A)).2
           = (before ++ [RmTempFailed "/tmp/tmpq1w2e3"])%list).
Proof.
  apply (rollback_tempdir_cleanup (readonly_env_device [])
           (entering CURRENT_ROOT_A (PStr STEP_TEST_ROLLBACK))
           (mmc_world STEP_TEST_ROLLBACK CURRENT_ROOT_A) CURRENT_ROOT_B);
    reflexivity.
Defined.

(** On a root that could not be identified the rollback preparation does
    nothing at all: no fault is injected, nothing is written, and no
    failure reason is recorded, so a run that was going keeps going. *)
Theorem rollback_preparation_unidentified env v w :
  other_root (current_root v) = None ->
  prepare_test_rollback env v w = (Ret v, w).
Proof.
  intros Hother. unfold prepare_test_rollback.
  unfold mbind, M_bind. rewrite get_inactive_bootpart_info_eq, Hother.
  destruct (keep_going v); reflexivity.
Qed.

Lemma rollback_preparation_unidentified_witness :
  let v := entering CURRENT_ROOT_UNDEFINED (PStr STEP_TEST_ROLLBACK) in
  let w := mmc_world STEP_TEST_ROLLBACK CURRENT_ROOT_A in
  prepare_test_rollback update_on_a_device v w = (Ret v, w).
Proof.
  cbn zeta. apply rollback_preparation_unidentified. reflexivity.
Defined.

(** The update preparation arms the bootloader before it looks for the
    partition: on a root that could not be identified, a run that was
    going and whose two writes succeed has set [bootcount] to 0 and
    [upgrade_available] to 1 when it gives up, with the reason that the
    partition numbers could not be identified. *)
Theorem update_preparation_unidentified env v w w1 w2 :
  keep_going v = true ->
  other_root (current_root v) = None ->
  set_env_variable env ENV_KEY_BOOTCOUNT "0" w = (Ret true, w1) ->
  set_env_variable env ENV_KEY_UPGRADE "1" w1 = (Ret true, w2) ->
  exists set_cmd,
    dict_get (self_state w) SET_CMD_KEY = PStr set_cmd
    /\ prepare_test_update env v w
       = (Ret (failed v "could not identify partition numbers for update, aborting"),
          log_to w [Spawn [set_cmd; ENV_KEY_BOOTCOUNT; "0"];
                    Spawn [set_cmd; ENV_KEY_UPGRADE; "1"];
                    Info "could not identify partition numbers for update, aborting"]).
Proof.
  intros Hk Hother E1 E2.
  remember (prepare_test_update env v w) as R eqn:HR.
  unfold prepare_test_update in HR. mstep HR. simp HR.
  rewrite get_inactive_bootpart_info_eq, Hother in HR. simp HR.
  apply set_env_variable_ok in E1 as (set_cmd & Hcmd & ->).
  apply set_env_variable_ok in E2 as (set_cmd2 & Hcmd2 & ->).
  cbn [log_to self_state] in Hcmd2. rewrite Hcmd in Hcmd2. injection Hcmd2 as <-.
  exists set_cmd. split; [exact Hcmd|]. subst R. f_equal. as_log.
Qed.

Lemma update_preparation_unidentified_witness :
  let v := entering CURRENT_ROOT_UNDEFINED (PStr STEP_TEST_UPDATE) in
  let w := mmc_world STEP_TEST_UPDATE CURRENT_ROOT_A in
  exists set_cmd,
    dict_get (self_state w) SET_CMD_KEY = PStr set_cmd
    /\ prepare_test_update update_on_a_device v w
       = (Ret (failed v "could not identify partition numbers for update, aborting"),
          log_to w [Spawn [set_cmd; ENV_KEY_BOOTCOUNT; "0"];
                    Spawn [set_cmd; ENV_KEY_UPGRADE; "1"];
                    Info "could not identify partition numbers for update, aborting"]).
Proof.
  cbn zeta.
  set (w := mmc_world STEP_TEST_UPDATE CURRENT_ROOT_A).
  set (w1 := log_to w [Spawn [SET_CMD_UBOOT; ENV_KEY_BOOTCOUNT; "0"]]).
  set (w2 := log_to w1 [Spawn [SET_CMD_UBOOT; ENV_KEY_UPGRADE; "1"]]).
  refine (update_preparation_unidentified update_on_a_device
            (entering CURRENT_ROOT_UNDEFINED (PStr STEP_TEST_UPDATE)) w w1 w2
            eq_refl eq_refl _ _);
    vm_compute; reflexivity.
Defined.

(** ** Probing the root, continued *)

Lemma attempt_stat rest :
  (length (attempt (PStr "stat" :: rest)) <= 1)%nat
  /\ Forall (fun e => is_stat e = true) (attempt (PStr "stat" :: rest)).
Proof.
  unfold attempt. cbn [argv_of]. destruct (argv_of rest); cbn;
    split; try lia; repeat constructor.
Qed.

Lemma identify_mounted_root_cases env w :
  exists answer l,
    identify_mounted_root env w = (Ret answer, log_to w l)
    /\ (answer = CURRENT_ROOT_A \/ answer = CURRENT_ROOT_B
        \/ answer = CURRENT_ROOT_UNDEFINED)
    /\ (length l <= 3)%nat
    /\ Forall (fun e => is_stat e = true) l.
Proof.
  remember (identify_mounted_root env w) as R eqn:HR.
  unfold identify_mounted_root, get_root_part_device_a, get_root_part_device_b,
    _get_state in HR.
  mstep HR.
  match type of HR with
  | context [run_command_get_output env ?c ?x] =>
      destruct (run_command_get_output env c x) as [r1 w1] eqn:E1;
      destruct (run_command_get_output_world _ _ _ _ _ E1) as [[root ->] ->];
      destruct (attempt_stat (tl c)) as [Hn1 Hs1]; clear E1
  end.
  simp HR. cbn [log_to self_state] in HR.
  match type of HR with
  | context [run_command_get_output env ?c ?x] =>
      destruct (run_command_get_output env c x) as [r2 w2] eqn:E2;
      destruct (run_command_get_output_world _ _ _ _ _ E2) as [[a ->] ->];
      destruct (attempt_stat (tl c)) as [Hn2 Hs2]; clear E2
  end.
  simp HR. cbn [log_to self_state] in HR.
  match type of HR with
  | context [run_command_get_output env ?c ?x] =>
      destruct (run_command_get_output env c x) as [r3 w3] eqn:E3;
      destruct (run_command_get_output_world _ _ _ _ _ E3) as [[b ->] ->];
      destruct (attempt_stat (tl c)) as [Hn3 Hs3]; clear E3
  end.
  simp HR. cbn [tl] in *. subst R. rewrite !log_to_app.
  eexists _, _. split; [reflexivity|]. split; [|split].
  - destruct (bool_decide (root = a)); [tauto|].
    destruct (bool_decide (root = b)); tauto.
  - rewrite !length_app. lia.
  - repeat (apply Forall_app; split); assumption.
Qed.

(** [identify_mounted_root] is a probe and nothing more: it never raises,
    answers one of the three identities, runs at most three processes,
    all of them [stat], and leaves the record and the state file as they
    were. *)
Theorem identify_mounted_root_probe env w :
  exists answer l,
    identify_mounted_root env w = (Ret answer, log_to w l)
    /\ (answer = CURRENT_ROOT_A \/ answer = CURRENT_ROOT_B
        \/ answer = CURRENT_ROOT_UNDEFINED)
    /\ (length l <= 3)%nat
    /\ Forall (fun e => is_stat e = true) l.
Proof. exact (identify_mounted_root_cases env w). Qed.

(** ** The switch test from one boot to the next *)

Lemma first_stage_switch env w root w1 :
  dict_get (self_state w) VALIDATION_STEP_KEY = PStr STEP_TEST_SWITCH ->
  identify_mounted_root env w = (Ret root, w1) ->
  first_stage env w
  = evaluate_test_switch (entering root (PStr STEP_TEST_SWITCH)) w1
    /\ self_state w1 = self_state w.
Proof.
  intros Hstep Hid.
  destruct (identify_mounted_root_cases env w) as (answer & l & Hcase & _).
  rewrite Hcase in Hid. injection Hid as -> <-.
  unfold first_stage. unfold mbind at 1, M_bind at 1. rewrite Hcase.
  unfold mbind at 1, M_bind at 1. rewrite get_step_eq. cbn [log_to self_state].
  rewrite Hstep. split; reflexivity.
Qed.

(** A confirmed switch moves the sequence on: when the persisted step is
    [TEST_SWITCH] and the probe answers the recorded [ExpectedRoot], the
    evaluation succeeds without touching the device, and the step that is
    then stored and prepared is [TEST_UPDATE]. *)
Theorem switch_confirmed_advances env w root w1 :
  dict_get (self_state w) VALIDATION_STEP_KEY = PStr STEP_TEST_SWITCH ->
  identify_mounted_root env w = (Ret root, w1) ->
  dict_get (self_state w) EXPECTED_ROOT_KEY = PStr root ->
  open_write_ok env (trace w1 ++ [Info "switch test successful"]) = true ->
  (first_stage env ≫= advance env) w
  = (Ret (set_s (entering root (PStr STEP_TEST_SWITCH)) (PStr STEP_TEST_UPDATE)),
     persisted (log_to w1 [Info "switch test successful"])
       VALIDATION_STEP_KEY (PStr STEP_TEST_UPDATE)).
Proof.
  intros Hstep Hid Hexp Hw.
  destruct (first_stage_switch env w root w1 Hstep Hid) as [Hfirst Hst].
  unfold mbind at 1, M_bind at 1. rewrite Hfirst.
  unfold evaluate_test_switch, get_expected_root, _get_state.
  unfold mbind, M_bind, mret, M_ret, get_self_state, info, emit. cbn beta iota.
  rewrite Hst, Hexp. cbn [entering current_root]. rewrite (proj2 (py_eqb_eq _ _) eq_refl).
  cbn beta iota. unfold advance. cbn [keep_going].
  change {| self_config := self_config w1; self_state := self_state w1;
            state_file := state_file w1;
            trace := trace w1 ++ [Info "switch test successful"] |}
    with (log_to w1 [Info "switch test successful"]).
  unfold mbind, M_bind, mret, M_ret. cbn [entering keep_going]. cbn beta.
  rewrite (next_step_moves env _ STEP_TEST_SWITCH STEP_TEST_UPDATE);
    [ reflexivity | set_solver | cbn [log_to self_state]; rewrite Hst; exact Hstep
    | exact Hw ].
Qed.

Lemma switch_confirmed_advances_witness :
  let w := mmc_world STEP_TEST_SWITCH CURRENT_ROOT_A in
  let w1 := log_to w (map Spawn (map fst stat_root_a)) in
  (first_stage update_on_a_device ≫= advance update_on_a_device) w
  = (Ret (set_s (entering CURRENT_ROOT_A (PStr STEP_TEST_SWITCH))
            (PStr STEP_TEST_UPDATE)),
     persisted (log_to w1 [Info "switch test successful"])
       VALIDATION_STEP_KEY (PStr STEP_TEST_UPDATE)).
Proof.
  cbn zeta.
  apply (switch_confirmed_advances update_on_a_device
           (mmc_world STEP_TEST_SWITCH CURRENT_ROOT_A) CURRENT_ROOT_A);
    [ reflexivity | vm_compute; reflexivity | reflexivity | reflexivity ].
Defined.

(** The evaluation of a refuted switch, and the advance it skips. *)
Lemma switch_refuted_not_advanced env w root w1 :
  dict_get (self_state w) VALIDATION_STEP_KEY = PStr STEP_TEST_SWITCH ->
  identify_mounted_root env w = (Ret root, w1) ->
  dict_get (self_state w) EXPECTED_ROOT_KEY <> PStr root ->
  (first_stage env ≫= advance env) w
  = (Ret (failed (entering root (PStr STEP_TEST_SWITCH)) "switch test failed"),
     log_to w1 [Info "switch test failed"]).
Proof.
  intros Hstep Hid Hexp.
  destruct (first_stage_switch env w root w1 Hstep Hid) as [Hfirst Hst].
  unfold mbind at 1, M_bind at 1. rewrite Hfirst.
  unfold evaluate_test_switch, get_expected_root, _get_state, fail_with.
  unfold mbind, M_bind, mret, M_ret, get_self_state, info, emit. cbn beta iota.
  rewrite Hst. cbn [entering current_root].
  rewrite (proj2 (py_eqb_neq _ _) Hexp). reflexivity.
Qed.

(** What the switch preparation makes of a run that has already failed:
    it never sets [keep_going] again, leaves the step alone, and keeps or
    replaces the reason. *)
Lemma prepare_switch_after_failure env v w v' w' :
  keep_going v = false ->
  prepare_test_switch env v w = (Ret v', w') ->
  keep_going v' = false /\ s v' = s v
  /\ dict_get (self_state w') VALIDATION_STEP_KEY
     = dict_get (self_state w) VALIDATION_STEP_KEY
  /\ (fail_reason v' = fail_reason v
      \/ fail_reason v'
         = Some "could not identify partition numbers for switch, aborting"
      \/ exists other,
           fail_reason v' = Some ("failed to set boot partition " ++ other)).
Proof.
  intros Hk HR. symmetry in HR.
  unfold prepare_test_switch in HR. mstep HR.
  rewrite get_inactive_bootpart_info_eq in HR. simp HR.
  destruct (other_root (current_root v)) as [other|]; simp HR.
  - cbn [inactive_number inactive_ident] in HR.
    match type of HR with
    | context [set_mender_bootpart env ?n ?y] =>
        destruct (set_mender_bootpart env n y) as [r1 w1] eqn:E1
    end.
    destruct (set_mender_bootpart_world _ _ _ _ _ E1) as (b & l & -> & ->).
    simp HR. destruct b; simp HR.
    + match type of HR with
      | context [set_expected_root env ?a ?b] =>
          destruct (set_expected_root env a b) as [[[]|e] w2] eqn:E2
      end; simp HR; [ | discriminate HR ].
      apply set_expected_root_returns in E2 as ->. inversion HR; subst; clear HR.
      repeat split; [ exact Hk | | left; reflexivity ].
      unfold dict_get, persisted. cbn [self_state log_to].
      rewrite lookup_insert_ne by discriminate. reflexivity.
    + inversion HR; subst; clear HR. cbn [failed keep_going s fail_reason].
      repeat split. right; right. eexists; reflexivity.
  - inversion HR; subst; clear HR. cbn [failed keep_going s fail_reason].
    repeat split. right; left. reflexivity.
Qed.

(** A refuted switch ends the validation on the boot that finds it.  When
    the probe answers anything but the recorded [ExpectedRoot] (a missing
    [ExpectedRoot] included), the evaluation records "switch test failed"
    without running a command, and the step is not advanced.  The
    preparation of the unchanged step [TEST_SWITCH] still runs, for it is
    not guarded by [keep_going]: it may select the other partition and
    store a new [ExpectedRoot], or put its own reason in place of the
    evaluation's.  Whatever it does, if it returns, the run does not
    reboot: it disables the service, removes the state file and logs the
    verdict FAILURE with the reason that is left. *)
Theorem switch_refuted_run env w root w1 v' w2 :
  dict_get (self_state w) VALIDATION_STEP_KEY = PStr STEP_TEST_SWITCH ->
  identify_mounted_root env w = (Ret root, w1) ->
  dict_get (self_state w) EXPECTED_ROOT_KEY <> PStr root ->
  prepare_test_switch env
    (failed (entering root (PStr STEP_TEST_SWITCH)) "switch test failed")
    (log_to w1 [Info "switch test failed"]) = (Ret v', w2) ->
  os_remove_ok env
    (trace w2 ++ [Spawn ["systemctl"; "disable";
                         "mender-bootloader-validation.service"]]) = true ->
  exists reason,
    fail_reason v' = Some reason
    /\ (reason = "switch test failed"
        \/ reason = "could not identify partition numbers for switch, aborting"
        \/ exists other, reason = "failed to set boot partition " ++ other)
    /\ keep_going v' = false
    /\ dict_get (self_state w2) VALIDATION_STEP_KEY = PStr STEP_TEST_SWITCH
    /\ stages env w
       = (Ret v',
          {| self_config := self_config w2; self_state := self_state w2;
             state_file := NoFile;
             trace :=
               trace w2
               ++ [Spawn ["systemctl"; "disable";
                          "mender-bootloader-validation.service"];
                   RemoveState;
                   Info ("BOOTLOADER VALIDATION: FAILURE - " ++ reason)] |}).
Proof.
  intros Hstep Hid Hexp Hprep Hrm.
  pose proof (switch_refuted_not_advanced env w root w1 Hstep Hid Hexp) as Hfirst.
  destruct (first_stage_switch env w root w1 Hstep Hid) as [_ Hst].
  destruct (prepare_switch_after_failure env
              (failed (entering root (PStr STEP_TEST_SWITCH)) "switch test failed")
              _ _ _ eq_refl Hprep) as (Hk & Hs & Hkey & Hreason).
  cbn [failed entering s fail_reason log_to self_state] in Hs, Hkey, Hreason.
  rewrite Hst, Hstep in Hkey.
  assert (Hsome : exists reason,
             fail_reason v' = Some reason
             /\ (reason = "switch test failed"
                 \/ reason
                    = "could not identify partition numbers for switch, aborting"
                 \/ exists other, reason = "failed to set boot partition " ++ other)).
  { destruct Hreason as [H | [H | [other H]]]; eexists; (split; [exact H|]);
      [ left | right; left | right; right; exists other ]; reflexivity. }
  destruct Hsome as (reason & Hfr & Hwhich).
  exists reason. split; [exact Hfr|]. split; [exact Hwhich|].
  split; [exact Hk|]. split; [exact Hkey|].
  unfold stages, second_stage.
  revert Hfirst. unfold mbind, M_bind.
  destruct (first_stage env w) as [[v0|e0] w0]; [ | discriminate ].
  destruct (advance env v0 w0) as [[va|ea] wa] eqn:Hadv; [ | discriminate ].
  intros [= -> ->].
  rewrite (prepare_switch_eq env
             (failed (entering root (PStr STEP_TEST_SWITCH)) "switch test failed")
             _ eq_refl), Hprep.
  rewrite (stopped_run_finalizes env v' w2 Hk Hrm), Hfr. reflexivity.
Qed.

Lemma switch_refuted_run_witness :
  let w := mmc_world STEP_TEST_SWITCH CURRENT_ROOT_B in
  let w1 := log_to w (map Spawn (map fst stat_root_a)) in
  let v' := failed (entering CURRENT_ROOT_A (PStr STEP_TEST_SWITCH))
              "switch test failed" in
  let w2 :=
    persisted
      (log_to w1 [Info "switch test failed";
                  Spawn [SET_CMD_UBOOT; ENV_KEY_BOOT_PART; "3"];
                  Spawn [SET_CMD_UBOOT; ENV_KEY_BOOT_PART_HEX; "3"]])
      EXPECTED_ROOT_KEY (PStr CURRENT_ROOT_B) in
  exists reason,
    fail_reason v' = Some reason
    /\ (reason = "switch test failed"
        \/ reason = "could not identify partition numbers for switch, aborting"
        \/ exists other, reason = "failed to set boot partition " ++ other)
    /\ keep_going v' = false
    /\ dict_get (self_state w2) VALIDATION_STEP_KEY = PStr STEP_TEST_SWITCH
    /\ stages update_on_a_device w
       = (Ret v',
          {| self_config := self_config w2; self_state := self_state w2;
             state_file := NoFile;
             trace :=
               trace w2
               ++ [Spawn ["systemctl"; "disable";
                          "mender-bootloader-validation.service"];
                   RemoveState;
                   Info ("BOOTLOADER VALIDATION: FAILURE - " ++ reason)] |}).
Proof.
  cbn zeta.
  refine (switch_refuted_run update_on_a_device
            (mmc_world STEP_TEST_SWITCH CURRENT_ROOT_B) CURRENT_ROOT_A
            (log_to (mmc_world STEP_TEST_SWITCH CURRENT_ROOT_B)
               (map Spawn (map fst stat_root_a)))
            _ _ eq_refl _ _ _ eq_refl);
    [ vm_compute; reflexivity | vm_compute; discriminate | vm_compute; reflexivity ].
Defined.

(** ** The first boot *)

Lemma extract_part_number_eq p w :
  extract_part_number (PStr p) w = (Ret (part_number p), w).
Proof.
  unfold extract_part_number, part_number.
  destruct (Regex.search_trailing_number p); reflexivity.
Qed.

Lemma create_initial_state_cases env w a b :
  dict_get (self_config w) ROOTFS_A_KEY = PStr a ->
  dict_get (self_config w) ROOTFS_B_KEY = PStr b ->
  (forall tr, open_write_ok env tr = true) ->
  exists uboot writes,
    create_initial_state env w
    = (Ret tt,
       {| self_config := self_config w;
          self_state := initial_record uboot a b (self_state w);
          state_file := JsonObject (initial_record uboot a b (self_state w));
          trace := trace w ++ Spawn ["which"; PRINT_CMD_UBOOT] :: writes |})
    /\ (uboot = true
        <-> exists out,
              subprocess_run env (trace w) ["which"; PRINT_CMD_UBOOT] = Exited 0 out)
    /\ length writes = 7%nat
    /\ Forall (fun e => is_write e = true) writes
    /\ last writes = Some (WriteState (initial_record uboot a b (self_state w))).
Proof.
  intros Ha Hb Hw.
  assert (Hrun : forall (uboot : bool) w1,
    self_config w1 = self_config w -> self_state w1 = self_state w ->
    state_file w1 = state_file w ->
    exists writes,
      (extract_part_number (dict_get (self_config w) ROOTFS_A_KEY) ≫= fun part_num_a =>
       extract_part_number (dict_get (self_config w) ROOTFS_B_KEY) ≫= fun part_num_b =>
       _set_state env SET_CMD_KEY
         (PStr (if uboot then SET_CMD_UBOOT else SET_CMD_GRUB));;
       _set_state env PRINT_CMD_KEY
         (PStr (if uboot then PRINT_CMD_UBOOT else PRINT_CMD_GRUB));;
       _set_state env ROOTFS_A_KEY (dict_get (self_config w) ROOTFS_A_KEY);;
       _set_state env ROOTFS_B_KEY (dict_get (self_config w) ROOTFS_B_KEY);;
       _set_state env PART_NUMBER_A_KEY part_num_a;;
       _set_state env PART_NUMBER_B_KEY part_num_b;;
       _set_step env STEP_NONE) w1
      = (Ret tt,
         {| self_config := self_config w;
            self_state := initial_record uboot a b (self_state w);
            state_file := JsonObject (initial_record uboot a b (self_state w));
            trace := trace w1 ++ writes |})
      /\ length writes = 7%nat
      /\ Forall (fun e => is_write e = true) writes
      /\ last writes = Some (WriteState (initial_record uboot a b (self_state w)))).
  { intros uboot w1 Hc Hs Hf. rewrite Ha, Hb. unfold _set_step.
    unfold mbind, M_bind. rewrite !extract_part_number_eq.
    repeat (rewrite _set_state_eq, Hw; cbn beta iota).
    unfold persisted, initial_record.
    cbn [self_config self_state state_file trace]. rewrite Hc, Hs.
    rewrite <- !app_assoc. cbn [app].
    eexists. split; [reflexivity|]. split; [reflexivity|].
    split; [repeat constructor | reflexivity]. }
  unfold create_initial_state, check_for_command, subprocess_run_caught.
  cbn [argv_of].
  unfold mbind at 1, M_bind at 1. unfold get_self_config at 1. cbn beta iota.
  unfold mbind at 1, M_bind at 1.
  unfold mbind at 1, M_bind at 1. unfold get_trace at 1. cbn beta iota.
  unfold mbind at 1, M_bind at 1. unfold emit at 1. cbn beta iota.
  unfold mret at 1, M_ret at 1. cbn beta iota.
  destruct (subprocess_run env (trace w) ["which"; PRINT_CMD_UBOOT])
    as [[| |code] out|] eqn:Hwhich; unfold mret at 1, M_ret at 1; cbn beta iota zeta.
  1: destruct (Hrun true
       {| self_config := self_config w; self_state := self_state w;
          state_file := state_file w;
          trace := trace w ++ [Spawn ["which"; PRINT_CMD_UBOOT]] |}
       eq_refl eq_refl eq_refl) as (writes & Heq & Hrest);
     exists true, writes.
  2-4: destruct (Hrun false
       {| self_config := self_config w; self_state := self_state w;
          state_file := state_file w;
          trace := trace w ++ [Spawn ["which"; PRINT_CMD_UBOOT]] |}
       eq_refl eq_refl eq_refl) as (writes & Heq & Hrest);
     exists false, writes.
  all: cbn [trace] in Heq; rewrite <- app_assoc in Heq; cbn [app] in Heq;
    (split; [exact Heq | split; [ | exact Hrest ] ]).
  - split; eauto.
  - split; [discriminate | intros [? [=]]].
  - split; [discriminate | intros [? [=]]].
  - split; [discriminate | intros [? [=]]].
Qed.

(** [create_initial_state] on a configuration that names both partitions,
    with a writable state file: it asks once whether [fw_printenv] is
    installed, and the answer picks the print and the set command
    together, so the record never pairs a U-Boot command with a GRUB one;
    the two devices are copied from the configuration with their trailing
    partition numbers, the step is ["none"], and after exactly seven
    writes the state file holds the record that is in memory. *)
Theorem create_initial_state_record env w a b :
  dict_get (self_config w) ROOTFS_A_KEY = PStr a ->
  dict_get (self_config w) ROOTFS_B_KEY = PStr b ->
  (forall tr, open_write_ok env tr = true) ->
  exists uboot writes,
    create_initial_state env w
    = (Ret tt,
       {| self_config := self_config w;
          self_state := initial_record uboot a b (self_state w);
          state_file := JsonObject (initial_record uboot a b (self_state w));
          trace := trace w ++ Spawn ["which"; PRINT_CMD_UBOOT] :: writes |})
    /\ (uboot = true
        <-> exists out,
              subprocess_run env (trace w) ["which"; PRINT_CMD_UBOOT] = Exited 0 out)
    /\ length writes = 7%nat
    /\ Forall (fun e => is_write e = true) writes
    /\ last writes = Some (WriteState (initial_record uboot a b (self_state w))).
Proof. exact (create_initial_state_cases env w a b). Qed.

Lemma create_initial_state_record_witness :
  let w := loaded update_on_a_device ∅ NoFile in
  exists uboot writes,
    create_initial_state update_on_a_device w
    = (Ret tt,
       {| self_config := self_config w;
          self_state :=
            initial_record uboot "/dev/mmcblk0p2" "/dev/mmcblk0p3" (self_state w);
          state_file :=
            JsonObject
              (initial_record uboot "/dev/mmcblk0p2" "/dev/mmcblk0p3" (self_state w));
          trace := trace w ++ Spawn ["which"; PRINT_CMD_UBOOT] :: writes |})
    /\ (uboot = true
        <-> exists out,
              subprocess_run update_on_a_device (trace w) ["which"; PRINT_CMD_UBOOT]
              = Exited 0 out)
    /\ length writes = 7%nat
    /\ Forall (fun e => is_write e = true) writes
    /\ last writes
       = Some (WriteState
                 (initial_record uboot "/dev/mmcblk0p2" "/dev/mmcblk0p3"
                    (self_state w))).
Proof.
  cbn zeta.
  apply (create_initial_state_record update_on_a_device
           (loaded update_on_a_device ∅ NoFile) "/dev/mmcblk0p2" "/dev/mmcblk0p3");
    [ vm_compute; reflexivity | vm_compute; reflexivity | intros tr; reflexivity ].
Defined.

Lemma prepare_init_eq env v w :
  os_release_ok env (trace w ++ attempt [PStr "uname"; PStr "-a"]) = true ->
  prepare_init env v w
  = (Ret v, log_to w [Spawn ["uname"; "-a"]; ReadOsRelease]).
Proof.
  intros Hok. unfold prepare_init.
  unfold mbind at 1, M_bind at 1.
  destruct (run_command_get_output env [PStr "uname"; PStr "-a"] w)
    as [r w1] eqn:E.
  destruct (run_command_get_output_world _ _ _ _ _ E) as [[out ->] ->].
  unfold mbind, M_bind, get_trace, emit, mret, M_ret. cbn beta iota.
  cbn [log_to trace self_config self_state state_file]. rewrite Hok.
  unfold log_to, attempt. cbn. rewrite <- app_assoc. reflexivity.
Qed.

Lemma reboot_eq env w : reboot env w = (Ret tt, log_to w [Spawn ["reboot"]]).
Proof.
  unfold reboot. unfold mbind, M_bind.
  destruct (run_command env [PStr "reboot"] w) as [r w1] eqn:E.
  destruct (run_command_world _ _ _ _ _ E) as [[ok ->] ->]. reflexivity.
Qed.

Lemma dict_get_empty key : dict_get ∅ key = PNone.
Proof. unfold dict_get. rewrite lookup_empty. reflexivity. Qed.

(** The first boot of a validation: with no state file, configuration
    files that can be read and name both partitions, a writable state
    file and a readable [/etc/os-release], the script builds the initial
    record, advances it to the step ["init"], gathers the system
    information and reboots.  Nothing is tested on this boot: no
    bootloader variable is read or set, and neither a failure reason nor
    a verdict is logged. *)
Theorem first_boot env a b :
  config_loads env ->
  dict_get (merged_config env) ROOTFS_A_KEY = PStr a ->
  dict_get (merged_config env) ROOTFS_B_KEY = PStr b ->
  (forall tr, open_write_ok env tr = true) ->
  (forall tr, os_release_ok env tr = true) ->
  exists root uboot probes writes,
    script env (boot NoFile)
    = (Ret (set_s (entering root PNone) (PStr STEP_INIT)),
       {| self_config := merged_config env;
          self_state :=
            <[VALIDATION_STEP_KEY := PStr STEP_INIT]> (initial_record uboot a b ∅);
          state_file :=
            JsonObject
              (<[VALIDATION_STEP_KEY := PStr STEP_INIT]> (initial_record uboot a b ∅));
          trace :=
            probes ++ Spawn ["which"; PRINT_CMD_UBOOT] :: writes
            ++ [Spawn ["uname"; "-a"]; ReadOsRelease; Spawn ["reboot"]] |})
    /\ Forall (fun e => is_stat e = true) probes
    /\ Forall (fun e => is_write e = true) writes.
Proof.
  intros Hloads Ha Hb Hw Hos.
  pose proof (init_outcome env NoFile Hloads eq_refl) as Hinit.
  cbn zeta in Hinit. rewrite Ha, Hb in Hinit. cbn [contributed] in Hinit.
  rewrite !dict_get_empty in Hinit.
  rewrite (proj2 (py_eqb_neq (PStr a) PNone)) in Hinit by discriminate.
  rewrite (proj2 (py_eqb_neq (PStr b) PNone)) in Hinit by discriminate.
  rewrite (proj2 (py_eqb_eq PNone PNone)) in Hinit by reflexivity.
  cbn [negb andb] in Hinit.
  destruct (identify_mounted_root_cases env (loaded env ∅ NoFile))
    as (root & probes & Hid & _ & _ & Hprobes).
  destruct (create_initial_state_cases env (log_to (loaded env ∅ NoFile) probes) a b
              Ha Hb Hw) as (uboot & writes & Hcreate & _ & _ & Hwrites & _).
  cbn [log_to loaded self_config self_state state_file trace app] in Hcreate.
  exists root, uboot, probes,
    (writes ++ [WriteState (<[VALIDATION_STEP_KEY := PStr STEP_INIT]>
                              (initial_record uboot a b ∅))])%list.
  split; [ | split; [exact Hprobes | apply Forall_app; split;
                                      [exact Hwrites | repeat constructor]]].
  unfold script, load_state.
  unfold mbind at 1, M_bind at 1. rewrite Hinit. cbn beta iota.
  unfold stages, first_stage.
  unfold mbind at 1, M_bind at 1. unfold mbind at 1, M_bind at 1.
  rewrite Hid. cbn beta iota.
  unfold mbind at 1, M_bind at 1. rewrite get_step_eq. cbn beta iota.
  cbn [log_to loaded self_config self_state state_file trace app].
  rewrite dict_get_empty.
  unfold evaluate. cbn [s]. rewrite (proj2 (py_eqb_eq PNone PNone)) by reflexivity.
  cbn iota.
  unfold mbind at 1, M_bind at 1. rewrite Hcreate. cbn beta iota.
  unfold mret at 1, M_ret at 1. cbn beta iota.
  unfold second_stage, advance. cbn [keep_going].
  unfold mbind at 1, M_bind at 1. unfold mbind at 1, M_bind at 1.
  unfold mbind at 1, M_bind at 1.
  rewrite (next_step_moves env _ STEP_NONE STEP_INIT);
    [ | set_solver | reflexivity | apply Hw ].
  cbn beta iota. unfold mret at 1, M_ret at 1. cbn beta iota.
  unfold prepare. cbn [set_s s].
  rewrite (proj2 (py_eqb_eq (PStr STEP_INIT) (PStr STEP_INIT))) by reflexivity.
  cbn iota. rewrite prepare_init_eq by apply Hos. cbn beta iota.
  unfold mbind at 1, M_bind at 1. unfold last_stage. cbn [keep_going].
  cbn [set_s keep_going]. cbn beta iota.
  rewrite reboot_eq. cbn beta iota. unfold mret, M_ret.
  unfold persisted, log_to. cbn [self_config self_state state_file trace].
  unfold entering. cbn [set_s keep_going fail_reason current_root].
  f_equal. f_equal. rewrite <- ?app_assoc. cbn [app]. rewrite <- ?app_assoc.
  reflexivity.
Qed.

Lemma first_boot_witness :
  exists root uboot probes writes,
    script update_on_a_device (boot NoFile)
    = (Ret (set_s (entering root PNone) (PStr STEP_INIT)),
       {| self_config := merged_config update_on_a_device;
          self_state :=
            <[VALIDATION_STEP_KEY := PStr STEP_INIT]>
              (initial_record uboot "/dev/mmcblk0p2" "/dev/mmcblk0p3" ∅);
          state_file :=
            JsonObject
              (<[VALIDATION_STEP_KEY := PStr STEP_INIT]>
                 (initial_record uboot "/dev/mmcblk0p2" "/dev/mmcblk0p3" ∅));
          trace :=
            probes ++ Spawn ["which"; PRINT_CMD_UBOOT] :: writes
            ++ [Spawn ["uname"; "-a"]; ReadOsRelease; Spawn ["reboot"]] |})
    /\ Forall (fun e => is_stat e = true) probes
    /\ Forall (fun e => is_write e = true) writes.
Proof.
  apply (first_boot update_on_a_device "/dev/mmcblk0p2" "/dev/mmcblk0p3");
    [ split; reflexivity | vm_compute; reflexivity | vm_compute; reflexivity
    | intros tr; reflexivity | intros tr; reflexivity ].
Defined.

(** ** The last boot *)

(** The sequence completes: a boot whose evaluation has kept going on the
    step [TEST_ROLLBACK] stores the step [END], prepares nothing, and
    finalizes instead of rebooting: the service is disabled, the state
    file removed, and the verdict printed is SUCCESS.  No bootloader
    variable is touched on the way. *)
Theorem sequence_completes env v w :
  keep_going v = true ->
  fail_reason v = None ->
  dict_get (self_state w) VALIDATION_STEP_KEY = PStr STEP_TEST_ROLLBACK ->
  open_write_ok env (trace w) = true ->
  os_remove_ok env
    (trace w
     ++ [WriteState (<[VALIDATION_STEP_KEY := PStr STEP_END]> (self_state w));
         Spawn ["systemctl"; "disable"; "mender-bootloader-validation.service"]])
  = true ->
  (v' ← second_stage env v; last_stage env v';; mret v') w
  = (Ret (stop (set_s v (PStr STEP_END))),
     {| self_config := self_config w;
        self_state := <[VALIDATION_STEP_KEY := PStr STEP_END]> (self_state w);
        state_file := NoFile;
        trace :=
          trace w
          ++ [WriteState (<[VALIDATION_STEP_KEY := PStr STEP_END]> (self_state w));
              Spawn ["systemctl"; "disable"; "mender-bootloader-validation.service"];
              RemoveState;
              Info "BOOTLOADER VALIDATION: SUCCESS"] |}).
Proof.
  intros Hk Hreason Hstep Hw Hrm.
  unfold second_stage, advance. rewrite Hk.
  unfold mbind at 1, M_bind at 1. unfold mbind at 1, M_bind at 1.
  unfold mbind at 1, M_bind at 1.
  rewrite (next_step_moves env _ STEP_TEST_ROLLBACK STEP_END);
    [ | set_solver | exact Hstep | exact Hw ].
  cbn beta iota. unfold mret at 1, M_ret at 1. cbn beta iota.
  unfold prepare. cbn [set_s s].
  rewrite (proj2 (py_eqb_neq (PStr STEP_END) (PStr STEP_INIT))) by discriminate.
  rewrite (proj2 (py_eqb_neq (PStr STEP_END) (PStr STEP_TEST_SWITCH))) by discriminate.
  rewrite (proj2 (py_eqb_neq (PStr STEP_END) (PStr STEP_TEST_UPDATE))) by discriminate.
  rewrite (proj2 (py_eqb_neq (PStr STEP_END) (PStr STEP_TEST_ROLLBACK))) by discriminate.
  rewrite (proj2 (py_eqb_eq (PStr STEP_END) (PStr STEP_END))) by reflexivity.
  cbn iota. unfold mret at 1, M_ret at 1. cbn beta iota.
  unfold mbind at 1, M_bind at 1.
  rewrite stopped_run_finalizes;
    [ | reflexivity
      | unfold persisted; cbn [trace]; rewrite <- app_assoc; exact Hrm ].
  cbn beta iota. unfold mret, M_ret.
  unfold persisted, stop. cbn [self_config self_state state_file trace fail_reason
                                 set_s keep_going current_root s].
  rewrite Hreason. rewrite <- app_assoc. reflexivity.
Qed.

Lemma sequence_completes_witness :
  let v := entering CURRENT_ROOT_A (PStr STEP_TEST_ROLLBACK) in
  let w := mmc_world STEP_TEST_ROLLBACK CURRENT_ROOT_A in
  (v' ← second_stage rolled_back_device v;
   last_stage rolled_back_device v';; mret v') w
  = (Ret (stop (set_s v (PStr STEP_END))),
     {| self_config := self_config w;
        self_state := <[VALIDATION_STEP_KEY := PStr STEP_END]> (self_state w);
        state_file := NoFile;
        trace :=
          trace w
          ++ [WriteState (<[VALIDATION_STEP_KEY := PStr STEP_END]> (self_state w));
              Spawn ["systemctl"; "disable"; "mender-bootloader-validation.service"];
              RemoveState;
              Info "BOOTLOADER VALIDATION: SUCCESS"] |}).
Proof.
  cbn zeta.
  apply (sequence_completes rolled_back_device
           (entering CURRENT_ROOT_A (PStr STEP_TEST_ROLLBACK))
           (mmc_world STEP_TEST_ROLLBACK CURRENT_ROOT_A));
    reflexivity.
Defined.

(** ** A partition left mounted *)

Lemma run_command_exited env cmd w w1 :
  run_command env cmd w = (Ret true, w1) ->
  exists argv,
    argv_of cmd = Some argv
    /\ exited_ok (subprocess_run env (trace w) argv) = true
    /\ w1 = log_to w [Spawn argv].
Proof.
  unfold run_command, subprocess_run_caught. intros HR.
  destruct (argv_of cmd) as [argv|]; mstep HR; [ | discriminate HR ].
  exists argv. split; [reflexivity|].
  destruct (subprocess_run env (trace w) argv) as [[| |] out|];
    try discriminate HR.
  injection HR as <-. split; reflexivity.
Qed.

Lemma raise_ends {A B} (m : M A) (f : A -> M B) w e w' :
  m w = (Raise e, w') -> (m ≫= f) w = (Raise e, w').
Proof. intros H. unfold mbind, M_bind. rewrite H. reflexivity. Qed.

Lemma mounted_after_mount env tr device dir :
  exited_ok (subprocess_run env tr ["mount"; device; dir]) = true ->
  still_mounted env (tr ++ [Spawn ["mount"; device; dir]]) dir = true.
Proof.
  intros Hexit. rewrite still_mounted_app. cbn [mounted_from mount_step].
  rewrite Hexit. cbn [is_mount_on]. rewrite !String.eqb_refl. reflexivity.
Qed.

(** The rollback preparation can end in an exception that nothing
    catches.  When the mount of the inactive partition has succeeded and
    the rename of its [boot] directory fails, or the rename succeeds and
    the unmount fails, the run records the reason and skips the rest of
    the block; the partition is then still mounted on the temporary
    directory, whose removal fails on leaving the block.  The preparation
    ends in [OSError]: no variable is written, no verdict is logged, and
    the run neither reboots nor finalizes. *)
Theorem rollback_left_mounted env v w inactive tmpdirname w1 :
  s v = PStr STEP_TEST_ROLLBACK -> keep_going v = true ->
  get_inactive_bootpart_info (current_root v) w = (Ret (Some inactive), w) ->
  mkdtemp env (trace w) = Some tmpdirname ->
  run_command env [PStr "mount"; inactive_device inactive; PStr tmpdirname]
    (log_to w [MkTemp tmpdirname]) = (Ret true, w1) ->
  let src := os_path_join tmpdirname BOOT_DIRECTORY in
  let dst := os_path_join tmpdirname BOOT_DIRECTORY_DEFUNCT in
  (os_rename_ok env (trace w1) src dst = false ->
   (v' ← prepare env v; last_stage env v';; mret v') w
   = (Raise OSError,
      log_to w1 [Rename src dst;
                 Info ("failed to rename " ++ BOOT_DIRECTORY ++ " in "
                       ++ tmpdirname ++ ", aborting");
                 RmTempFailed tmpdirname]))
  /\ (forall w2,
      os_rename_ok env (trace w1) src dst = true ->
      run_command env [PStr "umount"; PStr tmpdirname]
        (log_to w1 [Rename src dst]) = (Ret false, w2) ->
      (v' ← prepare env v; last_stage env v';; mret v') w
      = (Raise OSError,
         log_to w2 [Info ("failed to unmount " ++ tmpdirname);
                    RmTempFailed tmpdirname])).
Proof.
  intros Hs Hk Hinactive Hmk Hmount. cbn zeta.
  pose proof (run_command_exited _ _ _ _ Hmount) as (argv & Hargv & Hexit & Hw1).
  cbn [argv_of] in Hargv.
  destruct (inactive_device inactive) as [|device] eqn:Hdev;
    [discriminate Hargv|]. injection Hargv as <-.
  cbn [log_to trace] in Hexit.
  pose proof (mounted_after_mount env _ device tmpdirname Hexit) as Hmounted.
  assert (Htr1 : trace w1
                 = ((trace w ++ [MkTemp tmpdirname])
                    ++ [Spawn ["mount"; device; tmpdirname]])%list)
    by (rewrite Hw1; reflexivity).
  split.
  - intros Hren. apply raise_ends. rewrite (prepare_rollback_eq _ _ _ Hs).
    remember (prepare_test_rollback env v w) as R eqn:HR.
    unfold prepare_test_rollback, inject_fault, finally in HR.
    mstep HR. simp HR. rewrite Hmk in HR. simp HR.
    change {| self_config := self_config w; self_state := self_state w;
              state_file := state_file w;
              trace := trace w ++ [MkTemp tmpdirname] |}
      with (log_to w [MkTemp tmpdirname]) in HR.
    rewrite Hdev in HR. simp HR.
    rewrite Hren in HR. simp HR.
    rewrite cleanup_eq in HR. cbn [trace] in HR.
    replace (still_mounted env _ tmpdirname) with true in HR.
    + subst R. unfold log_to.
      cbn [self_config self_state state_file trace].
      rewrite <- ?app_assoc. reflexivity.
    + symmetry. rewrite <- !app_assoc. rewrite still_mounted_app.
      cbn [mounted_from mount_step]. rewrite <- Htr1 in Hmounted. exact Hmounted.
  - intros w2 Hren Humount. apply raise_ends.
    rewrite (prepare_rollback_eq _ _ _ Hs).
    remember (prepare_test_rollback env v w) as R eqn:HR.
    unfold prepare_test_rollback, inject_fault, finally in HR.
    mstep HR. simp HR. rewrite Hmk in HR. simp HR.
    change {| self_config := self_config w; self_state := self_state w;
              state_file := state_file w;
              trace := trace w ++ [MkTemp tmpdirname] |}
      with (log_to w [MkTemp tmpdirname]) in HR.
    rewrite Hdev in HR. simp HR.
    rewrite Hren in HR. simp HR.
    change {| self_config := self_config w1; self_state := self_state w1;
              state_file := state_file w1;
              trace := trace w1
                       ++ [Rename (os_path_join tmpdirname BOOT_DIRECTORY)
                             (os_path_join tmpdirname BOOT_DIRECTORY_DEFUNCT)] |}
      with (log_to w1 [Rename (os_path_join tmpdirname BOOT_DIRECTORY)
                         (os_path_join tmpdirname BOOT_DIRECTORY_DEFUNCT)]) in HR.
    simp HR. rewrite cleanup_eq in HR. cbn [trace] in HR.
    rewrite (failed_mount_not_mounted _ _ _ _ tmpdirname _ Humount) in HR
      by (repeat constructor).
    cbn [log_to trace] in HR. rewrite still_mounted_app in HR.
    cbn [mounted_from mount_step] in HR.
    rewrite <- Htr1 in Hmounted. rewrite Hmounted in HR.
    subst R. unfold log_to.
    cbn [self_config self_state state_file trace].
    rewrite <- ?app_assoc. reflexivity.
Qed.

Lemma rollback_left_mounted_witness :
  let env :=
    scripted_device (JsonObject mmc_config) NoFile
      (stat_root_a ++ [(["umount"; "/tmp/tmpq1w2e3"], Exited 32 "")])
      (Exited 0 "") in
  let v := entering CURRENT_ROOT_A (PStr STEP_TEST_ROLLBACK) in
  let w := mmc_world STEP_TEST_ROLLBACK CURRENT_ROOT_A in
  (v' ← prepare env v; last_stage env v';; mret v') w
  = (Raise OSError,
     log_to w [MkTemp "/tmp/tmpq1w2e3";
               Spawn ["mount"; "/dev/mmcblk0p3"; "/tmp/tmpq1w2e3"];
               Rename "/tmp/tmpq1w2e3/boot" "/tmp/tmpq1w2e3/boot-defunct";
               Spawn ["umount"; "/tmp/tmpq1w2e3"];
               Info "failed to unmount /tmp/tmpq1w2e3";
               RmTempFailed "/tmp/tmpq1w2e3"]).
Proof.
  cbn zeta.
  refine (proj2 (rollback_left_mounted
                   (scripted_device (JsonObject mmc_config) NoFile
                      (stat_root_a ++ [(["umount"; "/tmp/tmpq1w2e3"], Exited 32 "")])
                      (Exited 0 ""))
                   (entering CURRENT_ROOT_A (PStr STEP_TEST_ROLLBACK))
                   (mmc_world STEP_TEST_ROLLBACK CURRENT_ROOT_A)
                   {| inactive_number := PStr "3";
                      inactive_device := PStr "/dev/mmcblk0p3";
                      inactive_ident := CURRENT_ROOT_B |}
                   "/tmp/tmpq1w2e3"
                   (log_to (mmc_world STEP_TEST_ROLLBACK CURRENT_ROOT_A)
                      [MkTemp "/tmp/tmpq1w2e3";
                       Spawn ["mount"; "/dev/mmcblk0p3"; "/tmp/tmpq1w2e3"]])
                   eq_refl eq_refl _ eq_refl _)
            (log_to (mmc_world STEP_TEST_ROLLBACK CURRENT_ROOT_A)
               [MkTemp "/tmp/tmpq1w2e3";
                Spawn ["mount"; "/dev/mmcblk0p3"; "/tmp/tmpq1w2e3"];
                Rename "/tmp/tmpq1w2e3/boot" "/tmp/tmpq1w2e3/boot-defunct";
                Spawn ["umount"; "/tmp/tmpq1w2e3"]])
            _ _);
    vm_compute; reflexivity.
Defined.
